(** * ShallowSpeed: the two MLP training drivers

    A shallow embedding of [distributed_MLP/NN_From_Scratch.py] (the
    data-parallel driver) and [distributed_MLP/train_MLP_DDP.py] (the
    pipelined driver), with the properties of their process topology, data
    sharding, batching, call order and reporting.

    Ranks, sizes, lengths and row indices are natural numbers (MPI ranks and
    [len] are never negative).  The classes of the [minMLP] package are not
    part of the two drivers; what the drivers need of them is modelled from
    the specification and marked as such. *)

From Stdlib Require Import List Arith Lia Bool Permutation FinFun QArith.
Import ListNotations.
Local Open Scope nat_scope.

(** ** Python built-ins used by the drivers *)

Module Py.

(** Exceptions the drivers can raise. *)
Inductive exn : Type :=
| AssertionError
| ZeroDivisionError
| ValueError
| IndexError
| AttributeError.

(** The values an accuracy variable of the drivers can hold: [None], a
    float, or the float [nan] (numpy's quotient 0/0).  A float that is not
    [nan] is kept as the exact quotient it was computed from. *)
Inductive value : Type :=
| PyNone
| PyFloat (q : Q)
| PyNaN.

(** [bool(v)], as tested by [if v:]. *)
Definition truthy (v : value) : bool :=
  match v with
  | PyNone => false
  | PyFloat q => negb (Qeq_bool q 0)
  | PyNaN => true
  end.

(** [v is not None] *)
Definition is_not_None (v : value) : bool :=
  match v with
  | PyNone => false
  | _ => true
  end.

(** Number of items of [range(start, stop, step)] and of the slice
    [x[start:stop:step]] for a positive [step] and [stop <= len(x)]. *)
Definition slice_length (start stop step : nat) : nat :=
  if start <? stop then (stop - start - 1) / step + 1 else 0.

(** The indices [start, start+step, start+2*step, ...] below [stop]. *)
Definition slice_indices (start stop step : nat) : list nat :=
  map (fun k => start + k * step) (seq 0 (slice_length start stop step)).

(** [range(start, stop, step)]. *)
Definition range3 (start stop step : nat) : list nat :=
  slice_indices start stop step.

(** [range(n)]. *)
Definition range (n : nat) : list nat := seq 0 n.

(** The rows of [x] at the given indices, in that order. *)
Definition take_rows {A : Type} (x : list A) (idx : list nat) : list A :=
  flat_map (fun i => match nth_error x i with
                     | Some a => [a]
                     | None => []
                     end) idx.

(** [np.sum(pred == target)] for two arrays of class indices. *)
Definition count_equal (pred target : list nat) : nat :=
  length (filter (fun pt => fst pt =? snd pt) (combine pred target)).

(** [np.mean(pred == target)]; the mean of an empty array is [nan]. *)
Definition np_mean_equal (pred target : list nat) : value :=
  match length pred with
  | 0 => PyNaN
  | S n => PyFloat (Z.of_nat (count_equal pred target) # Pos.of_succ_nat n)
  end.

(** [x[start:stop:step]]: [stop] is clamped to [len(x)]. *)
Definition slice {A : Type} (x : list A) (start stop step : nat) : list A :=
  take_rows x (slice_indices start (Nat.min stop (length x)) step).

End Py.

(** ** Process topology of the pipelined driver

    [train_MLP_DDP.py], lines 54-57 and the uses of the two communicators at
    lines 62-63 and 75. *)

Module Topology.

(** [MPI.COMM_WORLD.Split(color=...)] as seen from world rank [r]: the
    members of the communicator [r] lands in are the world ranks whose
    colour equals the colour of [r]; with the default key they are ordered
    by world rank. *)
Definition Split (world_size : nat) (color : nat -> nat) (r : nat) : list nat :=
  filter (fun q => color q =? color r) (seq 0 world_size).

Definition Get_size (comm : list nat) : nat := length comm.

(** The rank of world rank [r] inside a communicator: its position. *)
Fixpoint Get_rank (comm : list nat) (r : nat) : nat :=
  match comm with
  | [] => 0
  | q :: rest => if q =? r then 0 else S (Get_rank rest r)
  end.

(** [dp_comm = MPI.COMM_WORLD.Split(color=rank % PP_tile_factor)] *)
Definition dp_comm (PP_tile_factor world_size r : nat) : list nat :=
  Split world_size (fun q => q mod PP_tile_factor) r.

(** [pp_comm = MPI.COMM_WORLD.Split(color=rank // PP_tile_factor)] *)
Definition pp_comm (PP_tile_factor world_size r : nat) : list nat :=
  Split world_size (fun q => q / PP_tile_factor) r.

(** [dp_comm.Get_rank()], the first argument of [dataset.load]. *)
Definition dp_rank (PP_tile_factor world_size r : nat) : nat :=
  Get_rank (dp_comm PP_tile_factor world_size r) r.

(** [pp_comm.rank], the [stage_idx] of the model. *)
Definition stage_id (PP_tile_factor world_size r : nat) : nat :=
  Get_rank (pp_comm PP_tile_factor world_size r) r.

(** The stage-communicator groups, one per stage index. *)
Definition stage_groups (W D : nat) : list (list nat) :=
  map (fun s => dp_comm D (W * D) s) (seq 0 D).

End Topology.

(** ** Sharding of the training set in the data-parallel driver

    [NN_From_Scratch.py], lines 78-79. *)

Module Shard.

(** [x_train[rank : len(x_train) : size]] *)
Definition shard {A : Type} (x_train : list A) (rank size : nat) : list A :=
  Py.slice x_train rank (length x_train) size.

(** The row indices of the original dataset of [N] rows that the slice
    [rank : N : size] selects. *)
Definition shard_rows (N rank size : nat) : list nat :=
  Py.slice_indices rank N size.

(** All shards of a world of [size] processes, rank by rank. *)
Definition all_shard_rows (N size : nat) : list (list nat) :=
  map (fun rank => shard_rows N rank size) (seq 0 size).

End Shard.

(** ** Runs of one process: result, mutable objects, and the calls made *)

Module Run.

(** The two schedules of [minMLP.pipe] the pipelined driver builds. *)
Inductive schedule : Type :=
| InferenceSchedule
| DataParallelSchedule.

(** What a process does that another process or the user can observe, and
    the calls into the model and the optimizer, in program order. *)
Inductive Event : Type :=
| Barrier
| Split (color : nat)
| Allreduce
| Gather
| Execute (s : schedule) (batch_id : nat)
| PrintDownloading
| Download
| LoadTarget (batch_id micro_id : nat)
| ReadBuffer (slot : nat)
| PrintLine (epoch : nat) (accuracy : Py.value)
| ModelEval
| ModelTrain
| Forward
| Loss
| LossGrad
| ZeroGrad
| Backward
| Step.

(** The events that talk to other processes.  [Execute] runs a schedule of
    the worker, whose steps send and receive between stages and, for a
    training schedule, all-reduce the gradients. *)
Definition is_communication (e : Event) : bool :=
  match e with
  | Barrier | Split _ | Allreduce | Gather | Execute _ _ => true
  | _ => false
  end.

Inductive Res (A : Type) : Type :=
| Ok (a : A)
| Raise (e : Py.exn).
Arguments Ok {A} a.
Arguments Raise {A} e.

(** A computation over mutable objects [S]: from the objects before, the
    result or the exception raised, the objects after, and the events
    emitted on the way. *)
Definition M (S A : Type) : Type := S -> Res A * S * list Event.

Definition result {S A : Type} (out : Res A * S * list Event) : Res A :=
  fst (fst out).
Definition final {S A : Type} (out : Res A * S * list Event) : S :=
  snd (fst out).
Definition trace {S A : Type} (out : Res A * S * list Event) : list Event :=
  snd out.

Definition ret {S A : Type} (a : A) : M S A := fun s => (Ok a, s, []).

Definition bind {S A B : Type} (m : M S A) (f : A -> M S B) : M S B :=
  fun s =>
    match m s with
    | (Ok a, s1, t1) =>
        match f a s1 with
        | (r, s2, t2) => (r, s2, t1 ++ t2)
        end
    | (Raise e, s1, t1) => (Raise e, s1, t1)
    end.

Definition raise {S A : Type} (e : Py.exn) : M S A :=
  fun s => (Raise e, s, []).

Definition emit {S : Type} (e : Event) : M S unit :=
  fun s => (Ok tt, s, [e]).

Definition get {S : Type} : M S S := fun s => (Ok s, s, []).

Definition modify {S : Type} (f : S -> S) : M S unit :=
  fun s => (Ok tt, f s, []).

(** [assert b] *)
Definition assert {S : Type} (b : bool) : M S unit :=
  if b then ret tt else raise Py.AssertionError.

(** [for a in l: body(a)] *)
Fixpoint for_each {S A : Type} (l : list A) (body : A -> M S unit) : M S unit :=
  match l with
  | [] => ret tt
  | a :: l' => bind (body a) (fun _ => for_each l' body)
  end.

(** A [for] loop that updates local variables [acc]. *)
Fixpoint for_fold {S A B : Type} (l : list A) (acc : B)
         (body : A -> B -> M S B) : M S B :=
  match l with
  | [] => ret acc
  | a :: l' => bind (body a acc) (fun acc' => for_fold l' acc' body)
  end.

End Run.

Declare Scope run_scope.
Delimit Scope run_scope with run.
Notation "x <- c1 ;; c2" := (Run.bind c1 (fun x => c2))
  (at level 61, c1 at next level, right associativity) : run_scope.
Notation "c1 ;; c2" := (Run.bind c1 (fun _ => c2))
  (at level 61, right associativity) : run_scope.
Local Open Scope run_scope.

(** ** The [minMLP] package as the drivers use it *)

Module MinMLP.
Import Run.

(** Modelled from the spec: the numeric compute library (section 6), "a
    pure tensor-in/tensor-out function set with no state", is not part of
    the drivers.  Arrays are lists of rows; the parameter tensors of a
    model are one value of [Params].  [sum_params] and [div_params] are the
    two halves of the gradient all-reduce, "summed then divided by
    data-parallel width"; [sgd_update lr p g] is [p - lr * g]. *)
Class Numeric : Type := {
  Row : Type;
  Params : Type;
  net : bool -> Params -> list Row -> list Row;
  mse_loss_grad : list Row -> list Row -> list Row;
  backprop : Params -> list Row -> list Row -> Params;
  zero_like : Params -> Params;
  add_params : Params -> Params -> Params;
  sum_params : list Params -> Params;
  div_params : Params -> nat -> Params;
  sgd_update : Q -> Params -> Params -> Params;
  model_hash : Params -> Z;
  argmax : Row -> nat
}.

Section Classes.
Context {num : Numeric}.

(** Modelled from the spec: the model class [MLP] of [minMLP.models] is
    missing.  It has "an explicit training flag", trainable tensors that
    [parameters()] exposes by reference, accumulated gradients, and the
    input a forward pass caches for the backward pass. *)
Record MLP : Type := {
  training : bool;
  params : Params;
  grads : Params;
  saved : list Row
}.

(** The mutable objects of one process: the one model object (shared by
    the optimizer and by both workers of the pipelined driver), the
    output buffers of the worker given to [compute_accuracy], and the
    number of collectives this process has completed. *)
Record Objects : Type := {
  model : MLP;
  buffers : nat -> list Row;
  collectives : nat
}.

(** The rest of the communicator, seen from one process: what its k-th
    collective hands back for the value it contributes.  For the
    gradient all-reduce that is the mean over the group, for the gather
    of [assert_sync] the values of all members. *)
Record Peers : Type := {
  allreduce_mean : nat -> Params -> Params;
  gather_hashes : nat -> Z -> list Z
}.

(** An update of the model object in place. *)
Definition on_model (f : MLP -> MLP) : M Objects unit :=
  modify (fun o => {| model := f (model o);
                      buffers := buffers o;
                      collectives := collectives o |}).

(** The index of the collective the process is about to take part in. *)
Definition count_collective : M Objects nat :=
  o <- get ;;
  modify (fun o => {| model := model o;
                      buffers := buffers o;
                      collectives := S (collectives o) |}) ;;
  ret (collectives o).

(** Modelled from the spec: the constructor of the missing class [MLP]; a
    fresh model holds the initial weights and zero gradients. *)
Definition new_MLP (p : Params) : MLP :=
  {| training := true; params := p; grads := zero_like p; saved := [] |}.

(** Modelled from the spec: the "explicit training flag on the model" of
    the missing class [MLP], set by [eval] and [train]. *)
Definition set_training (b : bool) (m : MLP) : MLP :=
  {| training := b; params := params m; grads := grads m; saved := saved m |}.

(** Modelled from the spec: [model.eval()] of the missing class [MLP]
    clears the training flag. *)
Definition MLP_eval : M Objects unit :=
  emit ModelEval ;;
  on_model (set_training false).

(** Modelled from the spec: [model.train()] of the missing class [MLP]
    sets the training flag. *)
Definition MLP_train : M Objects unit :=
  emit ModelTrain ;;
  on_model (set_training true).

(** Modelled from the spec: [model.forward(x)] of the missing class
    returns the output activation and caches what backward needs. *)
Definition MLP_forward (x : list Row) : M Objects (list Row) :=
  emit Forward ;;
  o <- get ;;
  on_model (fun m => {| training := training m; params := params m;
                        grads := grads m; saved := x |}) ;;
  ret (net (training (model o)) (params (model o)) x).

(** Modelled from the spec: [zero_grad()] of the missing class "resets
    accumulated gradients to zero". *)
Definition MLP_zero_grad : M Objects unit :=
  emit ZeroGrad ;;
  on_model (fun m => {| training := training m; params := params m;
                        grads := zero_like (params m); saved := saved m |}).

(** Modelled from the spec: [backward] of the missing class consumes the
    cached state and "accumulates parameter gradients in place". *)
Definition MLP_backward (dout : list Row) : M Objects unit :=
  emit Backward ;;
  on_model (fun m =>
    {| training := training m; params := params m;
       grads := add_params (grads m) (backprop (params m) (saved m) dout);
       saved := saved m |}).

(** Modelled from the spec: the gradient all-reduce, "summed then divided
    by data-parallel width", which "returns the result to all" members;
    the missing code performs it across the data-parallel communicator. *)
Definition allreduce_grads (peers : Peers) : M Objects unit :=
  emit Allreduce ;;
  k <- count_collective ;;
  on_model (fun m => {| training := training m; params := params m;
                        grads := allreduce_mean peers k (grads m);
                        saved := saved m |}).

(** Modelled from the spec: [Distributed_MLP.backward] of the missing
    class is the local backward pass followed by the all-reduce. *)
Definition Distributed_MLP_backward (peers : Peers) (dout : list Row)
  : M Objects unit :=
  MLP_backward dout ;;
  allreduce_grads peers.

(** The two model classes the data-parallel driver chooses from. *)
Inductive model_class : Type :=
| PlainMLP
| DistributedMLP.

(** [model.backward(dout)], dispatched on the class of [model]. *)
Definition model_backward (cls : model_class) (peers : Peers)
           (dout : list Row) : M Objects unit :=
  match cls with
  | PlainMLP => MLP_backward dout
  | DistributedMLP => Distributed_MLP_backward peers dout
  end.

(** Modelled from the spec: [SGD.step()] of the missing optimizer
    "applies param -= lr * grad for every parameter exposed by the
    model"; it holds the tensors of the model by reference. *)
Definition SGD_step (lr : Q) : M Objects unit :=
  emit Step ;;
  on_model (fun m => {| training := training m;
                        params := sgd_update lr (params m) (grads m);
                        grads := grads m; saved := saved m |}).

(** Modelled from the spec: [rprint] of the missing [minMLP.utils]
    prints on rank 0 only. *)
Definition rprint (rank epoch : nat) (accuracy : Py.value) : M Objects unit :=
  if rank =? 0 then emit (PrintLine epoch accuracy) else ret tt.

(** Modelled from the spec: [get_model_hash] of the missing
    [minMLP.utils]: "hashing all parameter tensors". *)
Definition get_model_hash : M Objects Z :=
  o <- get ;;
  ret (model_hash (params (model o))).

(** Modelled from the spec: [assert_sync] of the missing [minMLP.utils]:
    "comparing across the data-parallel group"; the hashes of the group
    are gathered and must all equal the hash of this process. *)
Definition assert_sync (peers : Peers) (h : Z) : M Objects unit :=
  emit Gather ;;
  k <- count_collective ;;
  assert (forallb (Z.eqb h) (gather_hashes peers k h)).

(** Modelled from the spec: the class [Dataset] of the missing
    [minMLP.pipe] (section 4.2).  [load] takes the interleaved shard
    (stride [DP_size], offset [DP_rank]); [get_num_batches] is the shard
    length divided by the batch size, floor; a micro-batch is a
    contiguous slice of [mubatch_size] rows; ids out of range are a
    bounds error. *)
Record Dataset : Type := {
  input_X : list Row;
  target_Y : list Row;
  batch_size : nat;
  mubatch_size : nat
}.

(** Modelled from the spec: [Dataset.load] of the missing [minMLP.pipe]
    takes the interleaved shard, "stride = dp_size, offset = dp_rank". *)
Definition Dataset_load (X Y : list Row) (batch_size mubatch_size : nat)
           (DP_rank DP_size : nat) : Dataset :=
  {| input_X := Shard.shard X DP_rank DP_size;
     target_Y := Shard.shard Y DP_rank DP_size;
     batch_size := batch_size;
     mubatch_size := mubatch_size |}.

(** Modelled from the spec: [get_num_batches] of the missing class
    [Dataset] "returns the shard's length divided by batch size (floor)". *)
Definition get_num_batches (d : Dataset) : nat :=
  length (input_X d) / batch_size d.

(** Modelled from the spec: the rows of a micro-batch of the missing class
    [Dataset], a contiguous slice "sized batch/micro-batch-count". *)
Definition micro_batch_rows (d : Dataset) (batch_id micro_id : nat) : list nat :=
  seq (batch_id * batch_size d + micro_id * mubatch_size d) (mubatch_size d).

(** Modelled from the spec: the ids the missing class [Dataset] accepts;
    "out-of-range ids fail with a bounds error". *)
Definition micro_batch_in_range (d : Dataset) (batch_id micro_id : nat) : bool :=
  (batch_id <? get_num_batches d)
  && ((micro_id + 1) * mubatch_size d <=? batch_size d).

(** Modelled from the spec: [load_micro_batch_target] of the missing
    class [Dataset]. *)
Definition load_micro_batch_target (d : Dataset) (batch_id micro_id : nat)
  : M Objects (list Row) :=
  emit (LoadTarget batch_id micro_id) ;;
  if micro_batch_in_range d batch_id micro_id
  then ret (Py.take_rows (target_Y d) (micro_batch_rows d batch_id micro_id))
  else raise Py.IndexError.

(** Modelled from the spec: a schedule of the missing [minMLP.pipe], as
    the drivers construct it. *)
Record Schedule : Type := {
  kind : schedule;
  num_micro_batches : nat;
  num_stages : nat;
  schedule_stage_id : nat
}.

(** Modelled from the spec: the class [Worker] of the missing
    [minMLP.pipe] (section 4.5).  The data-parallel communicator and the
    optimizer are absent on a validation worker.  [stage_output] and
    [stage_gradient] stand for what the steps of a schedule compute on
    this stage for a batch from the parameters and from what the
    neighbouring stages send. *)
Record Worker : Type := {
  stage_id : nat;
  pipeline_depth : nat;
  worker_dp_comm : option Peers;
  worker_optimizer : option Q;
  stage_output : Params -> nat -> list Row;
  stage_gradient : Params -> nat -> nat -> Params
}.

(** Modelled from the spec: the terminal stage of the missing class
    [Worker] is stage [depth - 1]. *)
Definition is_terminal (w : Worker) : bool :=
  (Z.of_nat (stage_id w) =? Z.of_nat (pipeline_depth w) - 1)%Z.

(** Modelled from the spec: the "per-stage output buffer indexed by slot"
    of the missing class [Worker]. *)
Definition write_buffer (slot : nat) (v : list Row) : M Objects unit :=
  modify (fun o => {| model := model o;
                      buffers := fun i => if i =? slot then v else buffers o i;
                      collectives := collectives o |}).

(** Modelled from the spec: [execute] with an inference schedule runs
    forward steps only; the output buffer (slot 1, the final layer
    output) is "updated only by the terminal stage". *)
Definition execute_inference (w : Worker) (batch_id : nat) : M Objects unit :=
  o <- get ;;
  if is_terminal w
  then write_buffer 1 (stage_output w (params (model o)) batch_id)
  else ret tt.

(** [worker.buffers[slot]] *)
Definition read_buffer (slot : nat) : M Objects (list Row) :=
  emit (ReadBuffer slot) ;;
  o <- get ;;
  ret (buffers o slot).

(** Modelled from the spec: [execute] with a training schedule zeroes
    the gradients at the start, accumulates them over the micro-batches,
    all-reduces them across the data-parallel communicator, and only
    then invokes the optimizer step.  What happens on a worker without
    communicator or optimizer is not specified; Python fails on the
    missing attribute. *)
Definition accumulate_gradients (w : Worker) (s : Schedule) (batch_id : nat)
  : M Objects unit :=
  MLP_zero_grad ;;
  for_each (Py.range (num_micro_batches s)) (fun micro_id =>
    on_model (fun m =>
      {| training := training m; params := params m;
         grads := add_params (grads m)
                    (stage_gradient w (params m) batch_id micro_id);
         saved := saved m |})).

(** Modelled from the spec: [execute] of the missing class [Worker] with
    a training schedule: local gradients, then the all-reduce, then the
    optimizer step. *)
Definition execute_training (w : Worker) (s : Schedule) (batch_id : nat)
  : M Objects unit :=
  match worker_dp_comm w, worker_optimizer w with
  | Some peers, Some lr =>
      accumulate_gradients w s batch_id ;;
      allreduce_grads peers ;;
      SGD_step lr
  | _, _ => raise Py.AttributeError
  end.

(** Modelled from the spec: [worker.execute(schedule, batch_id)] of the
    missing class [Worker], by kind of schedule. *)
Definition Worker_execute (w : Worker) (s : Schedule) (batch_id : nat)
  : M Objects unit :=
  emit (Execute (kind s) batch_id) ;;
  match kind s with
  | InferenceSchedule => execute_inference w batch_id
  | DataParallelSchedule => execute_training w s batch_id
  end.

End Classes.
End MinMLP.

(** ** The data-parallel driver, [NN_From_Scratch.py] *)

Module NNFromScratch.
Import Run MinMLP.

Section Driver.
Context {num : Numeric}.

Definition EPOCHS : nat := 10.
Definition GLOBAL_BATCH_SIZE : nat := 128.
(** [lr=0.1] *)
Definition learning_rate : Q := 1 # 10.

(** What the process finds when it starts: its place in
    [MPI.COMM_WORLD], whether the dataset directory exists, the four
    dataset files, the initial weights of a fresh model, and the other
    processes of the communicator. *)
Record Env : Type := {
  rank : nat;
  size : nat;
  save_dir_is_dir : bool;
  x_train_file : list Row;
  y_train_file : list Row;
  x_val_file : list Row;
  y_val_file : list Row;
  initial_params : Params;
  comm : Peers
}.

(** [compute_accuracy(model, x_val, y_val)], lines 16-30. *)
Definition compute_accuracy (x_val y_val : list Row) : M Objects Py.value :=
  MLP_eval ;;
  output <- MLP_forward x_val ;;
  MLP_train ;;
  let pred := map argmax output in
  let target := map argmax y_val in
  ret (Py.np_mean_equal pred target).

(** The body of the batch loop, lines 104-110. *)
Definition train_batch (cls : model_class) (comm : Peers) (x y : list Row)
  : M Objects unit :=
  output <- MLP_forward x ;;
  emit Loss ;;
  emit LossGrad ;;
  let dout := mse_loss_grad output y in
  MLP_zero_grad ;;
  model_backward cls comm dout ;;
  SGD_step learning_rate.

(** The calls of one iteration of the batch loop. *)
Definition batch_events (cls : model_class) : list Event :=
  [Forward; Loss; LossGrad; ZeroGrad; Backward]
    ++ match cls with
       | PlainMLP => []
       | DistributedMLP => [Allreduce]
       end
    ++ [Step].

(** The gradient the optimizer step of an iteration applies: the backward
    pass of this batch on a zeroed accumulator, all-reduced for a
    distributed model. *)
Definition batch_gradient (cls : model_class) (comm : Peers)
           (o : Objects) (x y : list Row) : Params :=
  let p := params (model o) in
  let local := add_params (zero_like p)
                 (backprop p x (mse_loss_grad (net (training (model o)) p x) y)) in
  match cls with
  | PlainMLP => local
  | DistributedMLP => allreduce_mean comm (collectives o) local
  end.

(** The rows of the shard that the iteration starting at row [j] uses:
    [j : min(len, j + batch_size)]. *)
Definition batch_rows (len batch_size j : nat) : list nat :=
  Py.slice_indices j (Nat.min len (j + batch_size)) 1.

(** The batches of one epoch over a shard of [len] rows, as row sets. *)
Definition epoch_batches (len batch_size : nat) : list (list nat) :=
  map (batch_rows len batch_size) (Py.range3 0 len batch_size).

(** The batch loop of one epoch, lines 100-110.  [range] with a zero
    step raises. *)
Definition training_loop (cls : model_class) (comm : Peers) (batch_size : nat)
           (x_train y_train : list Row) : M Objects unit :=
  if batch_size =? 0 then raise Py.ValueError
  else
    for_each (Py.range3 0 (length x_train) batch_size) (fun j =>
      let x := Py.slice x_train j (Nat.min (length x_train) (j + batch_size)) 1 in
      let y := Py.slice y_train j (Nat.min (length y_train) (j + batch_size)) 1 in
      train_batch cls comm x y).

(** The set-up of the main program up to the batch-size check, lines
    56-81: the action, and the shards and batch size it computes. *)
Definition prepare (env : Env) : M Objects (list Row * list Row * nat) :=
  (if negb (save_dir_is_dir env)
   then
     (if rank env =? 0
      then emit PrintDownloading ;; emit Download
      else ret tt) ;;
     emit Barrier
   else ret tt) ;;
  let x_train := Shard.shard (x_train_file env) (rank env) (size env) in
  let y_train := Shard.shard (y_train_file env) (rank env) (size env) in
  assert (GLOBAL_BATCH_SIZE mod size env =? 0) ;;
  let batch_size := GLOBAL_BATCH_SIZE / size env in
  ret (x_train, y_train, batch_size).

(** The main program, lines 54-120. *)
Definition main (env : Env) : M Objects unit :=
  data <- prepare env ;;
  let x_train := fst (fst data) in
  let y_train := snd (fst data) in
  let batch_size := snd data in
  let cls := if size env =? 1 then PlainMLP else DistributedMLP in
  on_model (fun _ => new_MLP (initial_params env)) ;;
  MLP_train ;;
  for_each (Py.range EPOCHS) (fun iteration =>
    accuracy <- compute_accuracy (x_val_file env) (y_val_file env) ;;
    rprint (rank env) iteration accuracy ;;
    training_loop cls (comm env) batch_size x_train y_train) ;;
  accuracy <- compute_accuracy (x_val_file env) (y_val_file env) ;;
  rprint (rank env) EPOCHS accuracy ;;
  h <- get_model_hash ;;
  assert_sync (comm env) h.

End Driver.
End NNFromScratch.

(** ** The pipelined driver, [train_MLP_DDP.py] *)

Module TrainDDP.
Import Run MinMLP.

Section Driver.
Context {num : Numeric}.

Definition EPOCHS : nat := 20.
Definition GLOBAL_BATCH_SIZE : nat := 128.
Definition N_MUBATCHES : nat := 1.
(** [lr=0.006] *)
Definition learning_rate : Q := 6 # 1000.

(** What the process finds when it starts.  The two tile factors are
    constants of the program text (both 1 as shipped) that are edited to
    match the launch; they are kept as inputs here. *)
Record Env : Type := {
  DP_tile_factor : nat;
  PP_tile_factor : nat;
  world_size : nat;
  rank : nat;
  x_train_file : list Row;
  y_train_file : list Row;
  x_val_file : list Row;
  y_val_file : list Row;
  initial_params : Params;
  dp_peers : Peers;
  train_output : Params -> nat -> list Row;
  train_gradient : Params -> nat -> nat -> Params;
  val_output : Params -> nat -> list Row
}.

(** [correct / total] at line 38.  Both are Python integers when the
    loop body never ran (division by zero raises); otherwise [correct]
    is a numpy integer, whose quotient by zero is [nan]. *)
Definition accuracy_quotient (num_batches correct total : nat)
  : M Objects Py.value :=
  match total with
  | S t => ret (Py.PyFloat (Z.of_nat correct # Pos.of_succ_nat t))
  | 0 => if num_batches =? 0 then raise Py.ZeroDivisionError
         else ret Py.PyNaN
  end.

(** The body of the loop of [compute_accuracy], lines 23-34, on the
    local variables [correct] and [total]. *)
Definition accuracy_batch (worker : Worker) (dataset : Dataset)
           (batch_id : nat) (counts : nat * nat) : M Objects (nat * nat) :=
  let schedule := {| kind := InferenceSchedule;
                     num_micro_batches := 1;
                     num_stages := pipeline_depth worker;
                     schedule_stage_id := stage_id worker |} in
  Worker_execute worker schedule batch_id ;;
  if (Z.of_nat (stage_id worker) =? Z.of_nat (pipeline_depth worker) - 1)%Z
  then
    output <- read_buffer 1 ;;
    let pred := map argmax output in
    y <- load_micro_batch_target dataset batch_id 0 ;;
    let target := map argmax y in
    ret (fst counts + Py.count_equal pred target, snd counts + length pred)
  else ret counts.

(** [compute_accuracy(model, worker, dataset)], lines 12-38. *)
Definition compute_accuracy (worker : Worker) (dataset : Dataset)
  : M Objects Py.value :=
  MLP_eval ;;
  counts <- for_fold (Py.range (get_num_batches dataset)) (0, 0)
                     (accuracy_batch worker dataset) ;;
  MLP_train ;;
  if (Z.of_nat (stage_id worker) =? Z.of_nat (pipeline_depth worker) - 1)%Z
  then accuracy_quotient (get_num_batches dataset) (fst counts) (snd counts)
  else ret Py.PyNone.

(** The events of the loop: the schedule runs, and on the last stage only
    the reads of buffer slot 1 and of the targets. *)
Definition validation_event (w : Worker) (e : Event) : Prop :=
  (exists b, e = Execute InferenceSchedule b)
  \/ (Z.of_nat (stage_id w) = Z.of_nat (pipeline_depth w) - 1)%Z
     /\ (e = ReadBuffer 1 \/ exists b, e = LoadTarget b 0).
(** Lines 87-90: [if accuracy: print(...)]. *)
Definition report_epoch (iteration : nat) (accuracy : Py.value)
  : M Objects unit :=
  if Py.truthy accuracy then emit (PrintLine iteration accuracy) else ret tt.

(** Lines 102-105: [if accuracy is not None: print(...)]. *)
Definition report_final (accuracy : Py.value) : M Objects unit :=
  if Py.is_not_None accuracy then emit (PrintLine EPOCHS accuracy) else ret tt.

(** Line 86 with lines 87-90, and line 101 with lines 102-105. *)
Definition epoch_validation (worker : Worker) (dataset : Dataset)
           (iteration : nat) : M Objects unit :=
  accuracy <- compute_accuracy worker dataset ;;
  report_epoch iteration accuracy.

Definition final_validation (worker : Worker) (dataset : Dataset)
  : M Objects unit :=
  accuracy <- compute_accuracy worker dataset ;;
  report_final accuracy.

(** The rows of the shard each batch of one epoch consumes, lines 92-99:
    the worker loads the micro-batches of the batch. *)
Definition epoch_batches (dataset : Dataset) : list (list nat) :=
  map (fun batch_id =>
         flat_map (micro_batch_rows dataset batch_id) (Py.range N_MUBATCHES))
      (Py.range3 0 (get_num_batches dataset) 1).

(** Lines 47-57: the two checks, the two splits and the sanity check;
    returns the two communicators. *)
Definition topology (env : Env) : M Objects (list nat * list nat) :=
  assert (DP_tile_factor env * PP_tile_factor env =? world_size env) ;;
  assert (GLOBAL_BATCH_SIZE mod DP_tile_factor env =? 0) ;;
  emit (Split (rank env mod PP_tile_factor env)) ;;
  let dp_comm := Topology.dp_comm (PP_tile_factor env) (world_size env) (rank env) in
  emit (Split (rank env / PP_tile_factor env)) ;;
  let pp_comm := Topology.pp_comm (PP_tile_factor env) (world_size env) (rank env) in
  assert ((Topology.Get_size dp_comm =? DP_tile_factor env)
          && (Topology.Get_size pp_comm =? PP_tile_factor env)) ;;
  ret (dp_comm, pp_comm).

(** The training worker and its dataset, lines 73-76. *)
Definition train_dataset (env : Env) (dp_comm : list nat) : Dataset :=
  let batch_size := GLOBAL_BATCH_SIZE / DP_tile_factor env in
  Dataset_load (x_train_file env) (y_train_file env)
               batch_size (batch_size / N_MUBATCHES)
               (Topology.Get_rank dp_comm (rank env))
               (Topology.Get_size dp_comm).

Definition train_worker (env : Env) (pp_comm : list nat) : Worker :=
  {| stage_id := Topology.Get_rank pp_comm (rank env);
     pipeline_depth := Topology.Get_size pp_comm;
     worker_dp_comm := Some (dp_peers env);
     worker_optimizer := Some learning_rate;
     stage_output := train_output env;
     stage_gradient := train_gradient env |}.

(** The validation worker and its dataset, lines 78-82: no
    data-parallel communicator, no optimizer, a single shard. *)
Definition val_dataset (env : Env) : Dataset :=
  Dataset_load (x_val_file env) (y_val_file env)
               GLOBAL_BATCH_SIZE GLOBAL_BATCH_SIZE 0 1.

Definition val_worker (env : Env) (pp_comm : list nat) : Worker :=
  {| stage_id := Topology.Get_rank pp_comm (rank env);
     pipeline_depth := Topology.Get_size pp_comm;
     worker_dp_comm := None;
     worker_optimizer := None;
     stage_output := val_output env;
     stage_gradient := train_gradient env |}.

(** Lines 93-97: the schedule built for every training batch. *)
Definition training_schedule (pp_comm : list nat) (rank : nat) : Schedule :=
  {| kind := DataParallelSchedule;
     num_micro_batches := N_MUBATCHES;
     num_stages := Topology.Get_size pp_comm;
     schedule_stage_id := Topology.Get_rank pp_comm rank |}.

(** The batch loop of one epoch, lines 92-99. *)
Definition training_loop (worker : Worker) (dataset : Dataset)
           (pp_comm : list nat) (rank : nat) : M Objects unit :=
  for_each (Py.range3 0 (get_num_batches dataset) 1) (fun batch_id =>
    let schedule := training_schedule pp_comm rank in
    Worker_execute worker schedule batch_id).

(** The main program, lines 46-108. *)
Definition main (env : Env) : M Objects unit :=
  comms <- topology env ;;
  let dp_comm := fst comms in
  let pp_comm := snd comms in
  on_model (fun _ => new_MLP (initial_params env)) ;;
  MLP_train ;;
  let dataset := train_dataset env dp_comm in
  let worker := train_worker env pp_comm in
  for_each (Py.range EPOCHS) (fun iteration =>
    epoch_validation (val_worker env pp_comm) (val_dataset env) iteration ;;
    training_loop worker dataset pp_comm (rank env)) ;;
  final_validation (val_worker env pp_comm) (val_dataset env) ;;
  h <- get_model_hash ;;
  assert_sync (dp_peers env) h.

End Driver.
End TrainDDP.

(** ** A data-parallel group of processes

    The processes of one data-parallel group run the same driver, each on
    its own objects.  Between collectives a process runs on its own; a
    collective completes only when every member of the group calls it, and
    then hands every member the same value.  A run in which some member
    raises, or in which the members call the all-reduce different numbers of
    times, never completes. *)

Module World.
Import Run MinMLP.

Section Group.
Context {num : Numeric}.

(** Modelled from the spec: the all-reduce of the gradients, "summed
    then divided by data-parallel width". *)
Definition allreduce (contributions : list Params) : Params :=
  div_params (sum_params contributions) (length contributions).

(** The group as one member sees it during one collective. *)
Definition group (reduced : Params -> Params) (hashes : Z -> list Z) : Peers :=
  {| allreduce_mean := fun _ g => reduced g;
     gather_hashes := fun _ h => hashes h |}.

(** The members of a group hold the same parameter tensors. *)
Definition in_sync (os : list Objects) : Prop :=
  forall o o', In o os -> In o' os -> params (model o) = params (model o').

(** The objects of all members after each ran its own piece of program,
    if none raised. *)
Fixpoint collect {A : Type} (outs : list (Res A * Objects * list Event))
  : option (list Objects) :=
  match outs with
  | [] => Some []
  | out :: rest =>
      match result out, collect rest with
      | Ok _, Some os => Some (final out :: os)
      | _, _ => None
      end
  end.

Definition locally {A : Type} (acts : list (M Objects A)) (os : list Objects)
  : option (list Objects) :=
  collect (map (fun ao => fst ao (snd ao)) (combine acts os)).

Section Lockstep.
Context {B : Type}.
(** The gradients a member hands to the all-reduce for a work item,
    and the whole step it runs for the item, all-reduce included. *)
Variable contribution : Objects -> B -> Params.
Variable step : Peers -> B -> M Objects unit.

Definition round (bs : list B) (os : list Objects) : option (list Objects) :=
  let g := allreduce (map (fun ob => contribution (fst ob) (snd ob))
                          (combine os bs)) in
  locally (map (step (group (fun _ => g) (fun h => [h]))) bs) os.

Fixpoint pick (k : nat) (work : list (list B)) : option (list B) :=
  match work with
  | [] => Some []
  | w :: rest =>
      match nth_error w k, pick k rest with
      | Some b, Some bs => Some (b :: bs)
      | _, _ => None
      end
  end.

Fixpoint rounds (ks : list nat) (work : list (list B)) (os : list Objects)
  : option (list Objects) :=
  match ks with
  | [] => Some os
  | k :: ks' =>
      match pick k work with
      | Some bs =>
          match round bs os with
          | Some os' => rounds ks' work os'
          | None => None
          end
      | None => None
      end
  end.

Definition lockstep (work : list (list B)) (os : list Objects)
  : option (list Objects) :=
  match work with
  | [] => Some os
  | w0 :: _ =>
      if forallb (fun w => length w =? length w0) work
      then rounds (seq 0 (length w0)) work os
      else None
  end.

(** The epochs of a run: validation on every member, then the batches
    in lock step. *)
Fixpoint epochs (iterations : list nat)
         (validate : nat -> list (M Objects unit))
         (work : list (list B)) (os : list Objects)
  : option (list Objects) :=
  match iterations with
  | [] => Some os
  | i :: rest =>
      match locally (validate i) os with
      | Some os1 =>
          match lockstep work os1 with
          | Some os2 => epochs rest validate work os2
          | None => None
          end
      | None => None
      end
  end.

(** The hash comparison at the end of both drivers, on every member. *)
Definition check_sync (os : list Objects) : list (Res unit) :=
  let hashes := map (fun o => model_hash (params (model o))) os in
  map (fun o => result ((h <- get_model_hash ;;
                         assert_sync (group (fun g => g) (fun _ => hashes)) h) o))
      os.

(** A whole run of the group from the creation of the models to the
    hash comparison: the objects of the members and the outcome of
    [assert_sync] on each, if the run completes. *)
Definition run (n_epochs : nat) (init : list (M Objects unit))
           (validate : nat -> list (M Objects unit))
           (work : list (list B)) (os : list Objects)
  : option (list Objects * list (Res unit)) :=
  match locally init os with
  | Some os1 =>
      match epochs (Py.range n_epochs) validate work os1 with
      | Some os2 =>
          match locally (validate n_epochs) os2 with
          | Some os3 => Some (os3, check_sync os3)
          | None => None
          end
      | None => None
      end
  | None => None
  end.
End Lockstep.

(** *** The group of the data-parallel driver *)

(** The batches of rank [r] in one epoch, lines 78-81 and 100-102. *)
Definition nn_batches (size : nat) (x_train_file y_train_file : list Row)
           (r : nat) : list (list Row * list Row) :=
  let x_train := Shard.shard x_train_file r size in
  let y_train := Shard.shard y_train_file r size in
  let batch_size := NNFromScratch.GLOBAL_BATCH_SIZE / size in
  map (fun j =>
         (Py.slice x_train j (Nat.min (length x_train) (j + batch_size)) 1,
          Py.slice y_train j (Nat.min (length y_train) (j + batch_size)) 1))
      (Py.range3 0 (length x_train) batch_size).

(** The part of [train_batch] before the all-reduce. *)
Definition nn_local_pass (b : list Row * list Row) : M Objects unit :=
  output <- MLP_forward (fst b) ;;
  emit Loss ;;
  emit LossGrad ;;
  MLP_zero_grad ;;
  MLP_backward (mse_loss_grad output (snd b)).

Definition nn_contribution (o : Objects) (b : list Row * list Row) : Params :=
  grads (model (final (nn_local_pass b o))).

Definition nn_step (size : nat) (peers : Peers) (b : list Row * list Row)
  : M Objects unit :=
  NNFromScratch.train_batch
    (if size =? 1 then PlainMLP else DistributedMLP) peers (fst b) (snd b).

Definition nn_init (p : Params) : M Objects unit :=
  on_model (fun _ => new_MLP p) ;;
  MLP_train.

Definition nn_validate (x_val y_val : list Row) (epoch rank : nat)
  : M Objects unit :=
  accuracy <- NNFromScratch.compute_accuracy x_val y_val ;;
  rprint rank epoch accuracy.

(** A run of [size] processes of [NN_From_Scratch.py] that have passed
    the batch-size check, from initial weights [ps], one per rank. *)
Definition nn_run (size : nat) (x_train_file y_train_file x_val y_val : list Row)
           (ps : list Params) (os : list Objects)
  : option (list Objects * list (Res unit)) :=
  if NNFromScratch.GLOBAL_BATCH_SIZE mod size =? 0
  then
    run nn_contribution (nn_step size) NNFromScratch.EPOCHS
        (map nn_init ps)
        (fun epoch => map (nn_validate x_val y_val epoch) (seq 0 size))
        (map (nn_batches size x_train_file y_train_file) (seq 0 size))
        os
  else None.

(** *** A data-parallel group of the pipelined driver *)

Definition comms (env : TrainDDP.Env) : list nat * list nat :=
  (Topology.dp_comm (TrainDDP.PP_tile_factor env) (TrainDDP.world_size env)
                    (TrainDDP.rank env),
   Topology.pp_comm (TrainDDP.PP_tile_factor env) (TrainDDP.world_size env)
                    (TrainDDP.rank env)).

(** The worker of a member with the group of the current collective in
    the place of its data-parallel communicator. *)
Definition in_group (w : Worker) (peers : Peers) : Worker :=
  {| stage_id := stage_id w;
     pipeline_depth := pipeline_depth w;
     worker_dp_comm := match worker_dp_comm w with
                       | Some _ => Some peers
                       | None => None
                       end;
     worker_optimizer := worker_optimizer w;
     stage_output := stage_output w;
     stage_gradient := stage_gradient w |}.

(** The batches of a member in one epoch, lines 92-99: its worker, the
    schedule and the batch id. *)
Definition ddp_batches (env : TrainDDP.Env) : list (Worker * Schedule * nat) :=
  map (fun batch_id =>
         (TrainDDP.train_worker env (snd (comms env)),
          TrainDDP.training_schedule (snd (comms env)) (TrainDDP.rank env),
          batch_id))
      (Py.range3 0 (get_num_batches (TrainDDP.train_dataset env (fst (comms env)))) 1).

(** The work items of the pipelined driver: a training schedule on a worker
    that has a data-parallel communicator and the optimizer of the driver. *)
Definition ddp_item (b : Worker * Schedule * nat) : Prop :=
  kind (snd (fst b)) = DataParallelSchedule
  /\ (exists peers, worker_dp_comm (fst (fst b)) = Some peers)
  /\ worker_optimizer (fst (fst b)) = Some TrainDDP.learning_rate.

Definition ddp_contribution (o : Objects) (b : Worker * Schedule * nat) : Params :=
  grads (model (final (accumulate_gradients (fst (fst b)) (snd (fst b)) (snd b) o))).

Definition ddp_step (peers : Peers) (b : Worker * Schedule * nat)
  : M Objects unit :=
  Worker_execute (in_group (fst (fst b)) peers) (snd (fst b)) (snd b).

Definition ddp_init (env : TrainDDP.Env) : M Objects unit :=
  on_model (fun _ => new_MLP (TrainDDP.initial_params env)) ;;
  MLP_train.

(** Lines 86-90 for the epochs, lines 101-105 after the last one. *)
Definition ddp_validate (epoch : nat) (env : TrainDDP.Env) : M Objects unit :=
  if epoch <? TrainDDP.EPOCHS
  then TrainDDP.epoch_validation (TrainDDP.val_worker env (snd (comms env)))
                                 (TrainDDP.val_dataset env) epoch
  else TrainDDP.final_validation (TrainDDP.val_worker env (snd (comms env)))
                                 (TrainDDP.val_dataset env).

(** A run of the members [envs] of one data-parallel group of
    [train_MLP_DDP.py] that have passed the topology checks. *)
Definition ddp_run (envs : list TrainDDP.Env) (os : list Objects)
  : option (list Objects * list (Res unit)) :=
  run ddp_contribution ddp_step TrainDDP.EPOCHS
      (map ddp_init envs)
      (fun epoch => map (ddp_validate epoch) envs)
      (map ddp_batches envs)
      os.

End Group.
End World.

(** ** A small instance of the numeric interface, for examples

    A one-weight linear model over the integers: a row is a number, the
    output is the weight times the input, the class of a row is its last
    digit, the learning rate is taken as 1 and the hash of a weight is the
    weight. *)

Module Toy.

Definition numeric : MinMLP.Numeric :=
  {| MinMLP.Row := Z;
     MinMLP.Params := Z;
     MinMLP.net := fun _ p x => map (Z.mul p) x;
     MinMLP.mse_loss_grad :=
       fun out y => map (fun oy => (fst oy - snd oy)%Z) (combine out y);
     MinMLP.backprop :=
       fun _ x dout =>
         fold_right Z.add 0%Z (map (fun xd => (fst xd * snd xd)%Z) (combine x dout));
     MinMLP.zero_like := fun _ => 0%Z;
     MinMLP.add_params := Z.add;
     MinMLP.sum_params := fold_right Z.add 0%Z;
     MinMLP.div_params := fun p n => (p / Z.of_nat n)%Z;
     MinMLP.sgd_update := fun _ p g => (p - g)%Z;
     MinMLP.model_hash := fun p => p;
     MinMLP.argmax := fun r => Z.to_nat (r mod 10) |}.

Definition objects (p : Z) : MinMLP.Objects (num := numeric) :=
  {| MinMLP.model := MinMLP.new_MLP (num := numeric) p;
     MinMLP.buffers := fun _ => [];
     MinMLP.collectives := 0 |}.

(** A group of one process: every collective hands back what was put in. *)
Definition alone : MinMLP.Peers (num := numeric) :=
  {| MinMLP.allreduce_mean := fun _ g => g;
     MinMLP.gather_hashes := fun _ h => [h] |}.

(** A process of the data-parallel driver: rank 1 of 3, dataset directory
    absent. *)
Definition nn_env_3 : NNFromScratch.Env (num := numeric) :=
  @NNFromScratch.Build_Env numeric 1 3 false
    [1; 2; 3; 4; 5]%Z [2; 4; 6; 8; 10]%Z [1; 2]%Z [2; 4]%Z 1%Z alone.

(** A process of the pipelined driver launched alone with tile factors
    2 and 1. *)
Definition ddp_env_mismatch : TrainDDP.Env (num := numeric) :=
  @TrainDDP.Build_Env numeric 2 1 1 0
    [1; 2; 3; 4]%Z [2; 4; 6; 8]%Z [1; 2]%Z [2; 4]%Z 1%Z alone
    (fun p _ => [p]) (fun p _ _ => p) (fun p _ => [p]).

(** A validation worker on the only stage of a one-stage pipeline whose
    output rows are all of class 5, and a dataset of two rows of classes
    2 and 4 in one batch. *)
Definition last_stage_worker : MinMLP.Worker (num := numeric) :=
  @MinMLP.Build_Worker numeric 0 1 None None
    (fun _ _ => [5; 5]%Z) (fun p _ _ => p).

Definition first_of_two_stages : MinMLP.Worker (num := numeric) :=
  @MinMLP.Build_Worker numeric 0 2 None None
    (fun _ _ => [5; 5]%Z) (fun p _ _ => p).

Definition dataset : MinMLP.Dataset (num := numeric) :=
  @MinMLP.Build_Dataset numeric [1; 2]%Z [2; 4]%Z 2 2.

(** Two processes of the data-parallel driver: 4 training rows, so that each
    rank has one batch of 2 rows per epoch. *)
Definition x_train_4 : list (MinMLP.Row (Numeric := numeric)) := [1; 2; 3; 4]%Z.
Definition y_train_4 : list (MinMLP.Row (Numeric := numeric)) := [2; 4; 6; 8]%Z.
Definition x_val_2 : list (MinMLP.Row (Numeric := numeric)) := [1; 2]%Z.
Definition y_val_2 : list (MinMLP.Row (Numeric := numeric)) := [2; 4]%Z.
Definition same_weights : list (MinMLP.Params (Numeric := numeric)) := [1; 1]%Z.

(** Rank [r] of a data-parallel group of two processes of the pipelined
    driver (tile factors 2 and 1), with 256 training rows and 128
    validation rows. *)
Definition ddp_member (r : nat) : TrainDDP.Env (num := numeric) :=
  @TrainDDP.Build_Env numeric 2 1 2 r
    (map Z.of_nat (seq 1 256)) (map (fun n => Z.of_nat (2 * n)) (seq 1 256))
    (map Z.of_nat (seq 1 128)) (map (fun n => Z.of_nat (2 * n)) (seq 1 128))
    1%Z alone
    (fun p b => [p]) (fun p b m => (p + Z.of_nat r + Z.of_nat b)%Z)
    (fun p b => map (fun n => (p * Z.of_nat n)%Z) (seq 1 128)).

End Toy.

(** ** Counting the calls of a run *)

Module Calls.

Definition is_backward (e : Run.Event) : bool :=
  match e with Run.Backward => true | _ => false end.

Definition is_step (e : Run.Event) : bool :=
  match e with Run.Step => true | _ => false end.

Definition is_allreduce (e : Run.Event) : bool :=
  match e with Run.Allreduce => true | _ => false end.

Definition is_print_line (e : Run.Event) : bool :=
  match e with Run.PrintLine _ _ => true | _ => false end.

(** A trace without its accuracy lines. *)
Definition without_lines (t : list Run.Event) : list Run.Event :=
  filter (fun e => negb (is_print_line e)) t.

(** How many events of a trace satisfy [p]. *)
Definition count (p : Run.Event -> bool) (t : list Run.Event) : nat :=
  length (filter p t).

End Calls.

(** ** More sample inputs, for examples *)

Module Sample.

(** Rank 1 of 2 processes of the data-parallel driver, dataset directory
    present, 5 training rows. *)
Definition nn_env_2 : NNFromScratch.Env (num := Toy.numeric) :=
  @NNFromScratch.Build_Env Toy.numeric 1 2 true
    [1; 2; 3; 4; 5]%Z [2; 4; 6; 8; 10]%Z [1; 2]%Z [2; 4]%Z 1%Z Toy.alone.

(** The pipelined driver as shipped (both tile factors 1) launched as one
    process, with a validation set of 2 rows. *)
Definition ddp_env_single : TrainDDP.Env (num := Toy.numeric) :=
  @TrainDDP.Build_Env Toy.numeric 1 1 1 0
    [1; 2; 3; 4]%Z [2; 4; 6; 8]%Z [1; 2]%Z [2; 4]%Z 1%Z Toy.alone
    (fun p _ => [p]) (fun p _ _ => p) (fun p _ => [p]).

(** Rank 4 of 6 processes of the pipelined driver with tile factors 2 and 3. *)
Definition ddp_env_2x3 : TrainDDP.Env (num := Toy.numeric) :=
  @TrainDDP.Build_Env Toy.numeric 2 3 6 4
    [1; 2; 3; 4]%Z [2; 4; 6; 8]%Z [1; 2]%Z [2; 4]%Z 1%Z Toy.alone
    (fun p _ => [p]) (fun p _ _ => p) (fun p _ => [p]).

End Sample.

(** * Properties of the drivers *)

(** ** Facts on lists and on division used throughout *)

Section ListFacts.
Context {A : Type}.

Lemma filter_none (f : A -> bool) (l : list A) :
  (forall x, In x l -> f x = false) -> filter f l = [].
Proof.
  induction l as [|a l IH]; intros H; simpl; [reflexivity|].
  rewrite (H a (or_introl eq_refl)). apply IH.
  intros x Hx. apply H. now right.
Qed.

Lemma filter_all (f : A -> bool) (l : list A) :
  (forall x, In x l -> f x = true) -> filter f l = l.
Proof.
  induction l as [|a l IH]; intros H; simpl; [reflexivity|].
  rewrite (H a (or_introl eq_refl)). f_equal. apply IH.
  intros x Hx. apply H. now right.
Qed.

(** A family of duplicate-free lists indexed by [s, s+1, ..., s+n-1] that
    are pairwise disjoint concatenates to a duplicate-free list. *)
Lemma NoDup_concat_family (F : nat -> list A) (n s : nat) :
  (forall r, s <= r < s + n -> NoDup (F r)) ->
  (forall r r' x, s <= r < s + n -> s <= r' < s + n -> r <> r' ->
                  In x (F r) -> ~ In x (F r')) ->
  NoDup (concat (map F (seq s n))).
Proof.
  revert s. induction n as [|n IH]; intros s Hnd Hdis; simpl; [constructor|].
  apply NoDup_app.
  - apply Hnd. lia.
  - apply IH.
    + intros r Hr. apply Hnd. lia.
    + intros r r' x Hr Hr'. apply Hdis; lia.
  - intros x Hx Hin. apply in_concat in Hin as [l [Hl Hxl]].
    apply in_map_iff in Hl as [r' [<- Hr']]. apply in_seq in Hr'.
    apply (Hdis s r' x); try lia; assumption.
Qed.

Lemma in_concat_family (F : nat -> list A) (n s : nat) (x : A) :
  In x (concat (map F (seq s n))) <-> exists r, s <= r < s + n /\ In x (F r).
Proof.
  rewrite in_concat. split.
  - intros [l [Hl Hx]]. apply in_map_iff in Hl as [r [<- Hr]].
    exists r. split; [now apply in_seq | assumption].
  - intros [r [Hr Hx]]. exists (F r). split; [|assumption].
    apply in_map. now apply in_seq.
Qed.
End ListFacts.

Lemma mod_block (k D j : nat) : j < D -> (k * D + j) mod D = j.
Proof. intros H. symmetry. apply Nat.mod_unique with k; lia. Qed.

Lemma div_block (k D j : nat) : j < D -> (k * D + j) / D = k.
Proof. intros H. symmetry. apply Nat.div_unique with j; lia. Qed.

Lemma block_decompose (D x : nat) : x = x / D * D + x mod D.
Proof. pose proof (Nat.div_mod_eq x D). lia. Qed.

(** ** The process topology *)

Section TopologyFacts.
Import Topology.

Lemma Get_rank_map_seq (f : nat -> nat) :
  (forall a b, f a = f b -> a = b) ->
  forall n s j, j < n -> Get_rank (map f (seq s n)) (f (s + j)) = j.
Proof.
  intros Hinj. induction n as [|n IH]; intros s j Hj; [lia|].
  simpl. destruct j as [|j].
  - rewrite Nat.add_0_r, Nat.eqb_refl. reflexivity.
  - destruct (Nat.eqb_spec (f s) (f (s + S j))) as [E|_].
    + apply Hinj in E. lia.
    + f_equal. replace (s + S j) with (S s + j) by lia. apply IH. lia.
Qed.

Lemma seq_around (s n a : nat) :
  a < n -> seq s n = seq s a ++ (s + a) :: seq (s + a + 1) (n - a - 1).
Proof.
  intros H. replace n with (a + (1 + (n - a - 1))) at 1 by lia.
  rewrite seq_app, seq_app. simpl. reflexivity.
Qed.

(** Ranks of one residue class modulo [D] inside one block of [D] ranks. *)
Lemma residue_in_block (D k c : nat) :
  c < D ->
  filter (fun q => q mod D =? c) (seq (k * D) D) = [k * D + c].
Proof.
  intros Hc. rewrite (seq_around (k * D) D c Hc), filter_app. simpl.
  rewrite mod_block, Nat.eqb_refl by assumption.
  rewrite !filter_none; [reflexivity | |];
    intros x Hx; apply in_seq in Hx; apply Nat.eqb_neq;
    replace x with (k * D + (x - k * D)) by lia;
    rewrite mod_block by lia; lia.
Qed.

Lemma residue_class (W D c : nat) :
  c < D ->
  filter (fun q => q mod D =? c) (seq 0 (W * D))
  = map (fun k => k * D + c) (seq 0 W).
Proof.
  intros Hc. induction W as [|W IH]; [reflexivity|].
  replace (S W * D) with (W * D + D) by lia.
  rewrite seq_app, filter_app, IH, seq_S, map_app. simpl.
  f_equal. now apply residue_in_block.
Qed.

Lemma quotient_class (W D k : nat) :
  0 < D -> k < W ->
  filter (fun q => q / D =? k) (seq 0 (W * D)) = seq (k * D) D.
Proof.
  intros HD Hk.
  replace (W * D) with (k * D + (D + (W - k - 1) * D)) by nia.
  rewrite !seq_app, !filter_app. simpl "+".
  rewrite (filter_none _ (seq 0 (k * D))).
  - rewrite (filter_none _ (seq (k * D + D) _)).
    + rewrite app_nil_r. simpl. apply filter_all.
      intros x Hx. apply in_seq in Hx. apply Nat.eqb_eq.
      replace x with (k * D + (x - k * D)) by lia.
      apply div_block. lia.
    + intros x Hx. apply in_seq in Hx. apply Nat.eqb_neq.
      assert (S k <= x / D); [|lia].
      apply Nat.div_le_lower_bound; lia.
  - intros x Hx. apply in_seq in Hx. apply Nat.eqb_neq.
    assert (x / D < k); [|lia].
    apply Nat.Div0.div_lt_upper_bound. lia.
Qed.

Lemma world_factors (W D r : nat) : r < W * D -> 0 < W /\ 0 < D.
Proof. intros H. split; destruct W, D; lia. Qed.

Lemma coordinates_in_range (W D r : nat) :
  r < W * D -> r / D < W /\ r mod D < D.
Proof.
  intros H. destruct (world_factors W D r H) as [HW HD]. split.
  - apply Nat.Div0.div_lt_upper_bound. lia.
  - apply Nat.mod_upper_bound. lia.
Qed.

Lemma dp_comm_members (W D r : nat) :
  r < W * D ->
  dp_comm D (W * D) r = map (fun k => k * D + r mod D) (seq 0 W).
Proof.
  intros H. unfold dp_comm, Split.
  apply residue_class. now apply (coordinates_in_range W D r).
Qed.

Lemma pp_comm_members (W D r : nat) :
  r < W * D ->
  pp_comm D (W * D) r = seq (r / D * D) D.
Proof.
  intros H. unfold pp_comm, Split.
  destruct (world_factors W D r H) as [HW HD].
  apply quotient_class; [assumption|]. now apply (coordinates_in_range W D r).
Qed.

Lemma dp_rank_is_quotient (W D r : nat) :
  r < W * D -> dp_rank D (W * D) r = r / D.
Proof.
  intros H. unfold dp_rank. rewrite dp_comm_members by assumption.
  destruct (coordinates_in_range W D r H) as [Hq Hm].
  assert (Hinj : forall a b, a * D + r mod D = b * D + r mod D -> a = b)
    by (intros a b E; nia).
  pose proof (Get_rank_map_seq (fun k => k * D + r mod D) Hinj W 0 (r / D) Hq) as G.
  simpl in G. rewrite <- block_decompose in G. exact G.
Qed.

Lemma stage_id_is_remainder (W D r : nat) :
  r < W * D -> stage_id D (W * D) r = r mod D.
Proof.
  intros H. unfold stage_id. rewrite pp_comm_members by assumption.
  destruct (coordinates_in_range W D r H) as [Hq Hm].
  pose proof (Get_rank_map_seq (fun k => k) (fun a b E => E) D (r / D * D)
                (r mod D) Hm) as G.
  rewrite map_id, <- block_decompose in G. exact G.
Qed.
End TopologyFacts.

(** C1. In a world of [W * D] processes the split by [rank mod D] puts rank
    [r] in a group made exactly of the ranks with the same remainder, of size
    [W]; the split by [rank / D] puts it in a group made exactly of the ranks
    with the same quotient, of size [D]; the pair (dp_rank, stage_id) is
    unique to [r]; and the stage groups are [D] pairwise disjoint groups of
    size [W] whose union is the whole rank set. *)
Theorem split_groups_and_coordinates (W D r : nat) :
  r < W * D ->
  (forall q, In q (Topology.dp_comm D (W * D) r)
             <-> q < W * D /\ q mod D = r mod D) /\
  NoDup (Topology.dp_comm D (W * D) r) /\
  Topology.Get_size (Topology.dp_comm D (W * D) r) = W /\
  (forall q, In q (Topology.pp_comm D (W * D) r)
             <-> q < W * D /\ q / D = r / D) /\
  NoDup (Topology.pp_comm D (W * D) r) /\
  Topology.Get_size (Topology.pp_comm D (W * D) r) = D /\
  (forall r', r' < W * D ->
     Topology.dp_rank D (W * D) r' = Topology.dp_rank D (W * D) r ->
     Topology.stage_id D (W * D) r' = Topology.stage_id D (W * D) r ->
     r' = r) /\
  length (Topology.stage_groups W D) = D /\
  Forall (fun g => Topology.Get_size g = W) (Topology.stage_groups W D) /\
  NoDup (concat (Topology.stage_groups W D)) /\
  Permutation (concat (Topology.stage_groups W D)) (seq 0 (W * D)).
Proof.
  intros Hr. destruct (world_factors W D r Hr) as [HW HD].
  assert (Hmem : forall c q, In q (Topology.dp_comm D (W * D) c)
                             <-> q < W * D /\ q mod D = c mod D).
  { intros c q. unfold Topology.dp_comm, Topology.Split.
    rewrite filter_In, in_seq, Nat.eqb_eq. intuition lia. }
  assert (Hnd : forall c, NoDup (Topology.dp_comm D (W * D) c)).
  { intros c. apply NoDup_filter, seq_NoDup. }
  assert (Hgroups : NoDup (concat (Topology.stage_groups W D))).
  { apply NoDup_concat_family; [intros; apply Hnd|].
    intros s s' x Hs Hs' Hne Hx Hx'.
    apply Hmem in Hx, Hx'. destruct Hx as [_ Hx], Hx' as [_ Hx'].
    rewrite (Nat.mod_small s D) in Hx by lia.
    rewrite (Nat.mod_small s' D) in Hx' by lia. lia. }
  assert (Hpp : forall q, In q (Topology.pp_comm D (W * D) r)
                          <-> q < W * D /\ q / D = r / D).
  { intros q. unfold Topology.pp_comm, Topology.Split.
    rewrite filter_In, in_seq, Nat.eqb_eq. intuition lia. }
  split; [apply Hmem|]. split; [apply Hnd|].
  split.
  { unfold Topology.Get_size. rewrite dp_comm_members by assumption.
    now rewrite length_map, length_seq. }
  split; [exact Hpp|]. split; [apply NoDup_filter, seq_NoDup|].
  split.
  { unfold Topology.Get_size. rewrite pp_comm_members by assumption.
    apply length_seq. }
  split.
  { intros r' Hr' Hdp Hst.
    rewrite !dp_rank_is_quotient in Hdp by assumption.
    rewrite !stage_id_is_remainder in Hst by assumption.
    rewrite (block_decompose D r), (block_decompose D r'). congruence. }
  split.
  { unfold Topology.stage_groups. now rewrite length_map, length_seq. }
  split.
  { unfold Topology.stage_groups. apply Forall_forall. intros g Hg.
    apply in_map_iff in Hg as [s [<- Hs]]. apply in_seq in Hs.
    unfold Topology.Get_size. rewrite dp_comm_members by nia.
    now rewrite length_map, length_seq. }
  split; [exact Hgroups|].
  apply NoDup_Permutation; [exact Hgroups | apply seq_NoDup |].
  intros x. unfold Topology.stage_groups.
  rewrite in_concat_family, in_seq. split.
  - intros [s [Hs Hx]]. apply Hmem in Hx. lia.
  - intros Hx. exists (x mod D). split.
    + pose proof (Nat.mod_upper_bound x D). lia.
    + apply Hmem. rewrite Nat.Div0.mod_mod. lia.
Qed.

Lemma split_groups_and_coordinates_witness :
  4 < 2 * 3 /\
  Topology.dp_comm 3 (2 * 3) 4 = [1; 4] /\
  Topology.Get_size (Topology.pp_comm 3 (2 * 3) 4) = 3.
Proof.
  split; [lia|]. split; [reflexivity|].
  apply (split_groups_and_coordinates 2 3 4). lia.
Defined.

(** ** Strided slices and the shards of the training set *)

Section SliceFacts.

Lemma slice_length_spec (start stop step k : nat) :
  0 < step ->
  k < Py.slice_length start stop step <-> start + k * step < stop.
Proof.
  intros Hs. unfold Py.slice_length.
  destruct (Nat.ltb_spec start stop) as [Hlt|Hge]; [|lia].
  split; intros H.
  - assert (k <= (stop - start - 1) / step) as Hk by lia.
    pose proof (Nat.Div0.mul_div_le (stop - start - 1) step). nia.
  - assert (k <= (stop - start - 1) / step); [|lia].
    apply Nat.div_le_lower_bound; lia.
Qed.

Lemma in_slice_indices (start stop step i : nat) :
  0 < step ->
  In i (Py.slice_indices start stop step)
  <-> i < stop /\ exists k, i = start + k * step.
Proof.
  intros Hs. unfold Py.slice_indices. rewrite in_map_iff. split.
  - intros [k [<- Hk]]. apply in_seq in Hk. split; [|now exists k].
    apply slice_length_spec; [assumption | lia].
  - intros [Hi [k ->]]. exists k. split; [reflexivity|].
    apply in_seq. split; [lia|]. simpl. now apply slice_length_spec.
Qed.

Lemma NoDup_slice_indices (start stop step : nat) :
  0 < step -> NoDup (Py.slice_indices start stop step).
Proof.
  intros Hs. unfold Py.slice_indices.
  apply Injective_map_NoDup; [|apply seq_NoDup].
  intros a b E. nia.
Qed.

Lemma in_shard_rows (N rank size i : nat) :
  rank < size ->
  In i (Shard.shard_rows N rank size) <-> i < N /\ i mod size = rank.
Proof.
  intros Hr. unfold Shard.shard_rows. rewrite in_slice_indices by lia.
  split.
  - intros [Hi [k ->]]. split; [assumption|].
    rewrite Nat.add_comm. now apply mod_block.
  - intros [Hi <-]. split; [assumption|]. exists (i / size).
    rewrite Nat.add_comm. apply block_decompose.
Qed.

Lemma take_rows_app {A : Type} (x : list A) (i j : list nat) :
  Py.take_rows x (i ++ j) = Py.take_rows x i ++ Py.take_rows x j.
Proof. unfold Py.take_rows. apply flat_map_app. Qed.

Lemma take_rows_concat {A : Type} (x : list A) (ll : list (list nat)) :
  Py.take_rows x (concat ll) = concat (map (Py.take_rows x) ll).
Proof.
  induction ll as [|l ll IH]; [reflexivity|].
  simpl. now rewrite take_rows_app, IH.
Qed.

Lemma take_rows_shift {A : Type} (a : A) (x : list A) (idx : list nat) :
  Py.take_rows (a :: x) (map S idx) = Py.take_rows x idx.
Proof.
  unfold Py.take_rows. induction idx as [|i idx IH]; [reflexivity|].
  simpl. now rewrite IH.
Qed.

Lemma take_rows_all {A : Type} (x : list A) :
  Py.take_rows x (seq 0 (length x)) = x.
Proof.
  induction x as [|a x IH]; [reflexivity|].
  simpl length. rewrite <- cons_seq, <- seq_shift.
  change (Py.take_rows (a :: x) (0 :: map S (seq 0 (length x))))
    with (a :: Py.take_rows (a :: x) (map S (seq 0 (length x)))).
  now rewrite take_rows_shift, IH.
Qed.

Lemma shard_as_rows {A : Type} (x : list A) (rank size : nat) :
  Shard.shard x rank size
  = Py.take_rows x (Shard.shard_rows (length x) rank size).
Proof.
  unfold Shard.shard, Py.slice, Shard.shard_rows.
  now rewrite Nat.min_id.
Qed.
End SliceFacts.

(** C2 as amended. For a dataset of [N] rows and [S >= 1] processes, the
    interleaved shards (rows rank, rank+S, rank+2S, ... below N) are pairwise
    disjoint, contain no row twice, and together hold every one of the [N]
    rows exactly once: their union is the whole dataset, including the
    [N mod S] rows past [S * (N / S)]. *)
Theorem shards_partition_dataset (N S : nat) :
  0 < S ->
  (forall r r' i, r < S -> r' < S -> r <> r' ->
     In i (Shard.shard_rows N r S) -> ~ In i (Shard.shard_rows N r' S)) /\
  NoDup (concat (Shard.all_shard_rows N S)) /\
  Permutation (concat (Shard.all_shard_rows N S)) (seq 0 N) /\
  (forall (A : Type) (x : list A), length x = N ->
     Permutation (concat (map (fun r => Shard.shard x r S) (seq 0 S))) x).
Proof.
  intros HS.
  assert (Hdis : forall r r' i, r < S -> r' < S -> r <> r' ->
            In i (Shard.shard_rows N r S) -> ~ In i (Shard.shard_rows N r' S)).
  { intros r r' i Hr Hr' Hne Hi Hi'.
    apply in_shard_rows in Hi, Hi'; lia. }
  assert (Hnd : NoDup (concat (Shard.all_shard_rows N S))).
  { apply NoDup_concat_family.
    - intros r _. now apply NoDup_slice_indices.
    - intros r r' i Hr Hr'. apply Hdis; lia. }
  assert (Hperm : Permutation (concat (Shard.all_shard_rows N S)) (seq 0 N)).
  { apply NoDup_Permutation; [exact Hnd | apply seq_NoDup |].
    intros i. unfold Shard.all_shard_rows.
    rewrite in_concat_family, in_seq. split.
    - intros [r [Hr Hi]]. apply in_shard_rows in Hi; lia.
    - intros Hi. exists (i mod S). split.
      + pose proof (Nat.mod_upper_bound i S). lia.
      + apply in_shard_rows; [apply Nat.mod_upper_bound; lia | lia]. }
  split; [exact Hdis|]. split; [exact Hnd|]. split; [exact Hperm|].
  intros A x Hx. subst N.
  rewrite (map_ext _ (fun r => Py.take_rows x (Shard.shard_rows (length x) r S)))
    by (intros r; apply shard_as_rows).
  rewrite <- (map_map (fun r => Shard.shard_rows (length x) r S) (Py.take_rows x)).
  rewrite <- take_rows_concat.
  rewrite <- (take_rows_all x) at 2.
  unfold Py.take_rows. apply Permutation_flat_map. exact Hperm.
Qed.

Lemma shards_partition_dataset_witness :
  0 < 2 /\
  Permutation (concat (Shard.all_shard_rows 5 2)) (seq 0 5) /\
  Shard.all_shard_rows 5 2 = [[0; 2; 4]; [1; 3]].
Proof.
  split; [lia|]. split; [|reflexivity].
  apply (shards_partition_dataset 5 2). lia.
Defined.

(** C2 as the specification words it fails: with 5 rows and 2 processes the
    shards hold all 5 rows, not only the first [2 * (5 / 2) = 4]. *)
Lemma shards_union_not_truncated :
  ~ ((forall r r' i, r < 2 -> r' < 2 -> r <> r' ->
        In i (Shard.shard_rows 5 r 2) -> ~ In i (Shard.shard_rows 5 r' 2)) /\
     NoDup (concat (Shard.all_shard_rows 5 2)) /\
     Permutation (concat (Shard.all_shard_rows 5 2)) (seq 0 (2 * (5 / 2)))).
Proof.
  intros [_ [_ H]]. apply Permutation_length in H. discriminate H.
Qed.

(** ** Runs: sequencing and loops *)

Section RunFacts.
Import Run.
Context {S : Type}.

Lemma bind_Ok {A B : Type} (m : M S A) (f : A -> M S B) (s : S) a s1 t1 :
  m s = (Ok a, s1, t1) ->
  bind m f s = (result (f a s1), final (f a s1), t1 ++ trace (f a s1)).
Proof.
  intros E. unfold bind. rewrite E.
  destruct (f a s1) as [[r s2] t2]. reflexivity.
Qed.

Lemma bind_Raise {A B : Type} (m : M S A) (f : A -> M S B) (s : S) e s1 t1 :
  m s = (Raise e, s1, t1) -> bind m f s = (Raise e, s1, t1).
Proof. intros E. unfold bind. now rewrite E. Qed.

Lemma for_each_events {A : Type} (body : A -> M S unit) (ev : A -> list Event)
      (l : list A) (s : S) :
  (forall a s, result (body a s) = Ok tt /\ trace (body a s) = ev a) ->
  result (for_each l body s) = Ok tt
  /\ trace (for_each l body s) = flat_map ev l.
Proof.
  intros Hbody. revert s. induction l as [|a l IH]; intros s; [now split|].
  simpl. destruct (body a s) as [[r s1] t1] eqn:E.
  destruct (Hbody a s) as [Hr Ht]. rewrite E in Hr, Ht.
  unfold result, trace in Hr, Ht. simpl in Hr, Ht. subst r t1. rewrite (bind_Ok _ _ _ _ _ _ E). simpl.
  destruct (IH s1) as [IHr IHt]. now rewrite IHr, IHt.
Qed.

Lemma for_fold_trace_Forall {A B : Type} (P : Event -> Prop)
      (body : A -> B -> M S B) (l : list A) :
  (forall a b s, Forall P (trace (body a b s))) ->
  forall b s, Forall P (trace (for_fold l b body s)).
Proof.
  intros Hbody. induction l as [|a l IH]; intros b s; [constructor|].
  simpl. destruct (body a b s) as [[[b'|e] s1] t1] eqn:E.
  - rewrite (bind_Ok _ _ _ _ _ _ E). simpl. apply Forall_app. split.
    + specialize (Hbody a b s). now rewrite E in Hbody.
    + apply IH.
  - rewrite (bind_Raise _ _ _ _ _ _ E). simpl.
    specialize (Hbody a b s). now rewrite E in Hbody.
Qed.

Lemma for_fold_final {A B : Type} (I : S -> Prop)
      (body : A -> B -> M S B) (l : list A) :
  (forall a b s, I s -> I (final (body a b s))) ->
  forall b s, I s -> I (final (for_fold l b body s)).
Proof.
  intros Hbody. induction l as [|a l IH]; intros b s Hs; [exact Hs|].
  simpl. destruct (body a b s) as [[[b'|e] s1] t1] eqn:E.
  - rewrite (bind_Ok _ _ _ _ _ _ E). simpl. apply IH.
    specialize (Hbody a b s Hs). now rewrite E in Hbody.
  - rewrite (bind_Raise _ _ _ _ _ _ E). simpl.
    specialize (Hbody a b s Hs). now rewrite E in Hbody.
Qed.

Lemma for_each_final {A : Type} (I : S -> Prop)
      (body : A -> M S unit) (l : list A) :
  (forall a s, I s -> I (final (body a s))) ->
  forall s, I s -> I (final (for_each l body s)).
Proof.
  intros Hbody. induction l as [|a l IH]; intros s Hs; [exact Hs|].
  simpl. destruct (body a s) as [[[b'|e] s1] t1] eqn:E.
  - rewrite (bind_Ok _ _ _ _ _ _ E). simpl. apply IH.
    specialize (Hbody a s Hs). now rewrite E in Hbody.
  - rewrite (bind_Raise _ _ _ _ _ _ E). simpl.
    specialize (Hbody a s Hs). now rewrite E in Hbody.
Qed.

Lemma for_each_returns {A : Type} (body : A -> M S unit) (l : list A) :
  (forall a s, In a l -> result (body a s) = Ok tt) ->
  forall s, result (for_each l body s) = Ok tt.
Proof.
  induction l as [|a l IH]; intros Hbody s; [reflexivity|].
  simpl. destruct (body a s) as [[[b'|e] s1] t1] eqn:E.
  - rewrite (bind_Ok _ _ _ _ _ _ E). simpl. apply IH.
    intros a' s0 Ha'. apply Hbody. now right.
  - pose proof (Hbody a s (or_introl eq_refl)) as Hb'.
    rewrite E in Hb'. discriminate Hb'.
Qed.
Lemma for_fold_events {A B : Type} (body : A -> B -> M S B)
      (ev : A -> list Event) (l : list A) :
  (forall a b s, In a l ->
     trace (body a b s) = ev a /\ exists b', result (body a b s) = Ok b') ->
  forall b s,
    trace (for_fold l b body s) = flat_map ev l
    /\ exists b', result (for_fold l b body s) = Ok b'.
Proof.
  induction l as [|a l IH]; intros Hbody b s; [split; [reflexivity | now exists b]|].
  simpl. destruct (body a b s) as [[[b'|e] s1] t1] eqn:E.
  - rewrite (bind_Ok _ _ _ _ _ _ E). cbn [result final trace fst snd].
    destruct (Hbody a b s (or_introl eq_refl)) as [Ht _].
    rewrite E in Ht. cbn [trace snd] in Ht. subst t1.
    destruct (IH (fun a' b0 s0 Ha' => Hbody a' b0 s0 (or_intror Ha')) b' s1)
      as [IHt IHr].
    rewrite IHt. now split.
  - destruct (Hbody a b s (or_introl eq_refl)) as [_ [b' Hb']].
    rewrite E in Hb'. discriminate Hb'.
Qed.

Lemma for_each_map {A A' : Type} (g : A -> A') (body : A' -> M S unit)
      (l : list A) (s : S) :
  for_each (map g l) body s = for_each l (fun a => body (g a)) s.
Proof.
  revert s. induction l as [|a l IH]; intros s; [reflexivity|].
  simpl. unfold bind. destruct (body (g a) s) as [[[u|e] s1] t1]; [|reflexivity].
  now rewrite IH.
Qed.

Lemma for_each_ext {A : Type} (body body' : A -> M S unit) (l : list A) (s : S) :
  (forall a s, In a l -> body a s = body' a s) ->
  for_each l body s = for_each l body' s.
Proof.
  revert s. induction l as [|a l IH]; intros s H; [reflexivity|].
  simpl. unfold bind. rewrite (H a s (or_introl eq_refl)).
  destruct (body' a s) as [[[u|e] s1] t1]; [|reflexivity].
  rewrite IH; [reflexivity|]. intros a' s' Ha'. apply H. now right.
Qed.
End RunFacts.

(** ** The batch loop of the data-parallel driver *)

Section TrainingLoopFacts.
Import Run MinMLP.
Context {num : Numeric}.

Lemma train_batch_run (cls : model_class) (comm : Peers) (x y : list Row)
      (o : Objects) :
  result (NNFromScratch.train_batch cls comm x y o) = Ok tt
  /\ trace (NNFromScratch.train_batch cls comm x y o) = NNFromScratch.batch_events cls
  /\ params (model (final (NNFromScratch.train_batch cls comm x y o)))
     = sgd_update NNFromScratch.learning_rate (params (model o))
                  (NNFromScratch.batch_gradient cls comm o x y).
Proof. destruct cls; repeat split; reflexivity. Qed.
End TrainingLoopFacts.

(** C6. Every iteration of the batch loop calls forward, the loss and its
    gradient, zero_grad, backward (followed by the all-reduce it carries out
    for a distributed model) and only then the optimizer step, in this
    order; an epoch is a sequence of such iterations and nothing else; and
    the step applies the gradient of this batch's backward pass on a zeroed
    accumulator, after the all-reduce. *)
Theorem training_iteration_order {num : MinMLP.Numeric}
        (cls : MinMLP.model_class) (comm : MinMLP.Peers) (batch_size : nat)
        (x_train y_train : list MinMLP.Row) (o : MinMLP.Objects) :
  batch_size <> 0 ->
  Run.result (NNFromScratch.training_loop cls comm batch_size x_train y_train o)
  = Run.Ok tt
  /\ Run.trace (NNFromScratch.training_loop cls comm batch_size x_train y_train o)
     = flat_map
         (fun _ =>
            [Run.Forward; Run.Loss; Run.LossGrad; Run.ZeroGrad; Run.Backward]
              ++ match cls with
                 | MinMLP.PlainMLP => []
                 | MinMLP.DistributedMLP => [Run.Allreduce]
                 end
              ++ [Run.Step])
         (Py.range3 0 (length x_train) batch_size)
  /\ (forall x y o',
        MinMLP.params (MinMLP.model
          (Run.final (NNFromScratch.train_batch cls comm x y o')))
        = MinMLP.sgd_update NNFromScratch.learning_rate
            (MinMLP.params (MinMLP.model o'))
            (NNFromScratch.batch_gradient cls comm o' x y)).
Proof.
  intros HB. unfold NNFromScratch.training_loop.
  destruct (Nat.eqb_spec batch_size 0) as [E|_]; [contradiction|].
  split; [|split].
  - apply for_each_returns. intros j s _. apply train_batch_run.
  - apply (for_each_events _ (fun _ => NNFromScratch.batch_events cls)).
    intros j s. split; apply train_batch_run.
  - intros x y o'. apply train_batch_run.
Qed.

Lemma training_iteration_order_witness :
  2 <> 0 /\
  Run.trace (NNFromScratch.training_loop MinMLP.DistributedMLP Toy.alone 2
               [1; 2; 3]%Z [2; 4; 6]%Z (Toy.objects 1))
  = [Run.Forward; Run.Loss; Run.LossGrad; Run.ZeroGrad; Run.Backward;
     Run.Allreduce; Run.Step;
     Run.Forward; Run.Loss; Run.LossGrad; Run.ZeroGrad; Run.Backward;
     Run.Allreduce; Run.Step].
Proof.
  split; [discriminate|].
  destruct (training_iteration_order (num := Toy.numeric) MinMLP.DistributedMLP
              Toy.alone 2 [1; 2; 3]%Z [2; 4; 6]%Z (Toy.objects 1))
    as [_ [H _]]; [discriminate|].
  rewrite H. reflexivity.
Defined.

(** ** The configuration checks *)

Section ConfigurationFacts.
Import Run MinMLP.
Context {num : Numeric}.

Lemma prepare_fails (env : NNFromScratch.Env) (o : Objects) :
  NNFromScratch.GLOBAL_BATCH_SIZE mod NNFromScratch.size env <> 0 ->
  NNFromScratch.prepare env o
  = (Raise Py.AssertionError, o,
     if NNFromScratch.save_dir_is_dir env then []
     else (if NNFromScratch.rank env =? 0
           then [PrintDownloading; Download] else []) ++ [Barrier]).
Proof.
  intros H. apply Nat.eqb_neq in H. unfold NNFromScratch.prepare.
  destruct (NNFromScratch.save_dir_is_dir env);
    [|destruct (NNFromScratch.rank env =? 0)];
    unfold bind, assert; simpl; rewrite H; reflexivity.
Qed.

Lemma topology_fails (env : TrainDDP.Env) (o : Objects) :
  TrainDDP.DP_tile_factor env * TrainDDP.PP_tile_factor env
    <> TrainDDP.world_size env
  \/ TrainDDP.GLOBAL_BATCH_SIZE mod TrainDDP.DP_tile_factor env <> 0 ->
  TrainDDP.topology env o = (Raise Py.AssertionError, o, []).
Proof.
  intros H. unfold TrainDDP.topology, bind, assert.
  destruct (Nat.eqb_spec (TrainDDP.DP_tile_factor env * TrainDDP.PP_tile_factor env)
                         (TrainDDP.world_size env)) as [E1|E1]; [|reflexivity].
  destruct H as [H|H]; [contradiction|].
  apply Nat.eqb_neq in H. simpl. rewrite H. reflexivity.
Qed.
End ConfigurationFacts.

(** C4 as amended. In the pipelined driver a tile-factor product that
    differs from the process count, and a global batch size the
    data-parallel width does not divide, each make the program fail on an
    assertion before it has emitted any event at all.  The data-parallel
    driver has no tile factors; it fails on a global batch size that the
    process count does not divide after the dataset set-up: with the dataset
    directory present nothing precedes the failure, with the directory
    absent the barrier (and on rank 0 the download) precedes it. *)
Theorem configuration_checks {num : MinMLP.Numeric} :
  (forall (env : TrainDDP.Env) (o : MinMLP.Objects),
      TrainDDP.DP_tile_factor env * TrainDDP.PP_tile_factor env
        <> TrainDDP.world_size env
      \/ TrainDDP.GLOBAL_BATCH_SIZE mod TrainDDP.DP_tile_factor env <> 0 ->
      Run.result (TrainDDP.main env o) = Run.Raise Py.AssertionError
      /\ Run.trace (TrainDDP.main env o) = [])
  /\ (forall (env : NNFromScratch.Env) (o : MinMLP.Objects),
      NNFromScratch.GLOBAL_BATCH_SIZE mod NNFromScratch.size env <> 0 ->
      Run.result (NNFromScratch.main env o) = Run.Raise Py.AssertionError
      /\ Run.trace (NNFromScratch.main env o)
         = if NNFromScratch.save_dir_is_dir env then []
           else (if NNFromScratch.rank env =? 0
                 then [Run.PrintDownloading; Run.Download] else [])
                ++ [Run.Barrier]).
Proof.
  split.
  - intros env o H. unfold TrainDDP.main.
    rewrite (bind_Raise _ _ _ _ _ _ (topology_fails env o H)). now split.
  - intros env o H. unfold NNFromScratch.main.
    rewrite (bind_Raise _ _ _ _ _ _ (prepare_fails env o H)). now split.
Qed.

Lemma configuration_checks_witness :
  (2 * 1 <> 1 \/ 128 mod 2 <> 0)
  /\ Run.trace (TrainDDP.main Toy.ddp_env_mismatch (Toy.objects 1)) = []
  /\ 128 mod 3 <> 0
  /\ Run.result (NNFromScratch.main Toy.nn_env_3 (Toy.objects 1))
     = Run.Raise Py.AssertionError.
Proof.
  destruct (configuration_checks (num := Toy.numeric)) as [Hddp Hnn].
  split; [left; discriminate|]. split.
  - apply (Hddp Toy.ddp_env_mismatch (Toy.objects 1)). left. discriminate.
  - split; [discriminate|].
    apply (Hnn Toy.nn_env_3 (Toy.objects 1)). discriminate.
Defined.

(** C4 as the specification words it fails in the data-parallel driver:
    started as rank 1 of 3 with the dataset directory absent, the process
    takes part in a barrier and only then fails the divisibility check. *)
Lemma barrier_precedes_batch_size_check :
  NNFromScratch.GLOBAL_BATCH_SIZE mod NNFromScratch.size Toy.nn_env_3 <> 0
  /\ Run.result (NNFromScratch.main Toy.nn_env_3 (Toy.objects 1))
     = Run.Raise Py.AssertionError
  /\ Run.trace (NNFromScratch.main Toy.nn_env_3 (Toy.objects 1)) = [Run.Barrier]
  /\ existsb Run.is_communication
       (Run.trace (NNFromScratch.main Toy.nn_env_3 (Toy.objects 1))) = true.
Proof. repeat split; try reflexivity. discriminate. Qed.

(** ** Batches of one epoch *)

Section BatchFacts.

Lemma map_add_seq (a n : nat) : map (fun k => a + k) (seq 0 n) = seq a n.
Proof.
  revert a. induction n as [|n IH]; intros a; [reflexivity|].
  simpl. rewrite Nat.add_0_r. f_equal.
  rewrite <- seq_shift, map_map, <- (IH (S a)).
  apply map_ext. intros k. lia.
Qed.

(** A slice with step 1 is a contiguous run of rows. *)
Lemma slice_indices_contiguous (start stop : nat) :
  Py.slice_indices start stop 1 = seq start (stop - start).
Proof.
  unfold Py.slice_indices, Py.slice_length.
  destruct (Nat.ltb_spec start stop) as [H|H].
  - rewrite Nat.div_1_r.
    replace (stop - start - 1 + 1) with (stop - start) by lia.
    rewrite <- (map_add_seq start). apply map_ext. intros k. lia.
  - replace (stop - start) with 0 by lia. reflexivity.
Qed.

Lemma range_count (L B : nat) :
  0 < B ->
  Py.slice_length 0 L B = L / B + (if L mod B =? 0 then 0 else 1).
Proof.
  intros HB. unfold Py.slice_length.
  pose proof (Nat.div_mod_eq L B) as HL.
  pose proof (Nat.mod_upper_bound L B) as Hr.
  destruct (Nat.ltb_spec 0 L) as [HL0|HL0].
  - destruct (Nat.eqb_spec (L mod B) 0) as [E|E].
    + assert (1 <= L / B) by (destruct (L / B); [lia | lia]).
      rewrite <- (Nat.div_unique (L - 0 - 1) B (L / B - 1) (B - 1)); nia.
    + rewrite <- (Nat.div_unique (L - 0 - 1) B (L / B) (L mod B - 1)); lia.
  - assert (L = 0) by lia. subst L.
    rewrite Nat.Div0.div_0_l, Nat.Div0.mod_0_l. reflexivity.
Qed.

Lemma full_batches_concat (B q : nat) :
  concat (map (fun k => seq (k * B) B) (seq 0 q)) = seq 0 (q * B).
Proof.
  induction q as [|q IH]; [reflexivity|].
  rewrite seq_S, map_app, concat_app, IH. simpl.
  rewrite app_nil_r, <- seq_app. f_equal. lia.
Qed.

(** The batches of the data-parallel driver: the full batches, then one
    batch of the rows that remain. *)
Lemma nn_epoch_batches (L B : nat) :
  0 < B ->
  NNFromScratch.epoch_batches L B
  = map (fun k => seq (k * B) B) (seq 0 (L / B))
    ++ (if L mod B =? 0 then [] else [seq (L / B * B) (L mod B)]).
Proof.
  intros HB. unfold NNFromScratch.epoch_batches, Py.range3, Py.slice_indices.
  rewrite range_count by assumption. rewrite map_map.
  pose proof (Nat.div_mod_eq L B) as HL.
  rewrite seq_app, map_app. f_equal.
  - apply map_ext_in. intros k Hk. apply in_seq in Hk.
    unfold NNFromScratch.batch_rows. rewrite slice_indices_contiguous.
    simpl "+". assert (k * B + B <= L) by nia.
    rewrite Nat.min_r by assumption. f_equal. lia.
  - destruct (Nat.eqb_spec (L mod B) 0) as [E|E]; [reflexivity|].
    simpl. unfold NNFromScratch.batch_rows.
    rewrite slice_indices_contiguous.
    pose proof (Nat.mod_upper_bound L B).
    rewrite Nat.min_l by nia. do 2 f_equal. lia.
Qed.

Context {num : MinMLP.Numeric}.

(** The batch loop runs [train_batch] on the rows of each batch in turn. *)
Lemma training_loop_batches (cls : MinMLP.model_class) (comm : MinMLP.Peers)
      (B : nat) (x_train y_train : list MinMLP.Row) (o : MinMLP.Objects) :
  B <> 0 -> length y_train = length x_train ->
  NNFromScratch.training_loop cls comm B x_train y_train o
  = Run.for_each (NNFromScratch.epoch_batches (length x_train) B)
      (fun rows => NNFromScratch.train_batch cls comm
                     (Py.take_rows x_train rows) (Py.take_rows y_train rows)) o.
Proof.
  intros HB Hy. unfold NNFromScratch.training_loop, NNFromScratch.epoch_batches.
  destruct (Nat.eqb_spec B 0) as [E|_]; [contradiction|].
  rewrite for_each_map. apply for_each_ext. intros j s _.
  unfold Py.slice, NNFromScratch.batch_rows. rewrite Hy.
  now rewrite <- Nat.min_assoc, (Nat.min_comm (j + B)), Nat.min_assoc, Nat.min_id.
Qed.

(** The batches of the pipelined driver: the full batches only. *)
Lemma ddp_epoch_batches (d : MinMLP.Dataset) :
  MinMLP.mubatch_size d = MinMLP.batch_size d / TrainDDP.N_MUBATCHES ->
  TrainDDP.epoch_batches d
  = map (fun k => seq (k * MinMLP.batch_size d) (MinMLP.batch_size d))
        (seq 0 (length (MinMLP.input_X d) / MinMLP.batch_size d)).
Proof.
  intros Hmu. unfold TrainDDP.epoch_batches, Py.range3.
  rewrite slice_indices_contiguous, Nat.sub_0_r.
  unfold MinMLP.get_num_batches. apply map_ext. intros k.
  unfold TrainDDP.N_MUBATCHES in *. rewrite Nat.div_1_r in Hmu.
  simpl. unfold MinMLP.micro_batch_rows. rewrite Hmu, app_nil_r.
  f_equal. lia.
Qed.
End BatchFacts.




(** ** [compute_accuracy] of the pipelined driver *)

Section AccuracyFacts.
Import Run MinMLP.
Context {num : Numeric}.

Lemma accuracy_batch_other_stage (w : Worker) (d : Dataset) (b : nat)
      (c : nat * nat) (o : Objects) :
  (Z.of_nat (stage_id w) =? Z.of_nat (pipeline_depth w) - 1)%Z = false ->
  TrainDDP.accuracy_batch w d b c o = (Ok c, o, [Execute InferenceSchedule b]).
Proof.
  intros H.
  unfold TrainDDP.accuracy_batch, Worker_execute, execute_inference,
    is_terminal.
  rewrite !H. reflexivity.
Qed.

Lemma accuracy_batch_last_stage (w : Worker) (d : Dataset) (b : nat)
      (c : nat * nat) (o : Objects) :
  (Z.of_nat (stage_id w) =? Z.of_nat (pipeline_depth w) - 1)%Z = true ->
  TrainDDP.accuracy_batch w d b c o
  = (if micro_batch_in_range d b 0
     then Ok (fst c + Py.count_equal
                        (map argmax (stage_output w (params (model o)) b))
                        (map argmax (Py.take_rows (target_Y d)
                                                  (micro_batch_rows d b 0))),
              snd c + length (map argmax (stage_output w (params (model o)) b)))
     else Raise Py.IndexError,
     final (write_buffer 1 (stage_output w (params (model o)) b) o),
     [Execute InferenceSchedule b; ReadBuffer 1; LoadTarget b 0]).
Proof.
  intros H.
  unfold TrainDDP.accuracy_batch, Worker_execute, execute_inference,
    is_terminal, load_micro_batch_target.
  rewrite !H.
  destruct (micro_batch_in_range d b 0); reflexivity.
Qed.

(** One pass of the loop leaves the model object as it is. *)
Lemma accuracy_batch_model (w : Worker) (d : Dataset) (b : nat)
      (c : nat * nat) (o : Objects) :
  model (final (TrainDDP.accuracy_batch w d b c o)) = model o.
Proof.
  destruct (Z.of_nat (stage_id w) =? Z.of_nat (pipeline_depth w) - 1)%Z eqn:H.
  - now rewrite accuracy_batch_last_stage.
  - now rewrite accuracy_batch_other_stage.
Qed.

Lemma accuracy_quotient_pure (n correct total : nat) (o : Objects) :
  final (TrainDDP.accuracy_quotient n correct total o) = o
  /\ trace (TrainDDP.accuracy_quotient n correct total o) = [].
Proof.
  unfold TrainDDP.accuracy_quotient.
  destruct total; [destruct (n =? 0)|]; now split.
Qed.

(** [compute_accuracy] is its loop between the two switches of the
    training flag, followed by the quotient on the last stage. *)
Lemma compute_accuracy_run (w : Worker) (d : Dataset) (o : Objects) :
  TrainDDP.compute_accuracy w d o
  = match result (for_fold (Py.range (get_num_batches d)) (0, 0)
                           (TrainDDP.accuracy_batch w d) (final (MLP_eval o))) with
    | Ok c =>
        (result
           ((if (Z.of_nat (stage_id w) =? Z.of_nat (pipeline_depth w) - 1)%Z
             then TrainDDP.accuracy_quotient (get_num_batches d) (fst c) (snd c)
             else ret Py.PyNone)
              (final (MLP_train
                 (final (for_fold (Py.range (get_num_batches d)) (0, 0)
                           (TrainDDP.accuracy_batch w d) (final (MLP_eval o))))))),
         final (MLP_train
                  (final (for_fold (Py.range (get_num_batches d)) (0, 0)
                            (TrainDDP.accuracy_batch w d) (final (MLP_eval o))))),
         ModelEval
           :: trace (for_fold (Py.range (get_num_batches d)) (0, 0)
                       (TrainDDP.accuracy_batch w d) (final (MLP_eval o)))
           ++ [ModelTrain])
    | Raise e =>
        (Raise e,
         final (for_fold (Py.range (get_num_batches d)) (0, 0)
                  (TrainDDP.accuracy_batch w d) (final (MLP_eval o))),
         ModelEval
           :: trace (for_fold (Py.range (get_num_batches d)) (0, 0)
                       (TrainDDP.accuracy_batch w d) (final (MLP_eval o))))
    end.
Proof.
  unfold TrainDDP.compute_accuracy.
  rewrite (bind_Ok MLP_eval _ o tt (final (MLP_eval o)) [ModelEval] eq_refl).
  destruct (for_fold (Py.range (get_num_batches d)) (0, 0)
              (TrainDDP.accuracy_batch w d) (final (MLP_eval o)))
    as [[[c|e] s1] t1] eqn:E.
  - rewrite (bind_Ok _ _ _ _ _ _ E).
    rewrite (bind_Ok MLP_train _ s1 tt (final (MLP_train s1)) [ModelTrain] eq_refl).
    cbn [result final trace fst snd].
    destruct (Z.of_nat (stage_id w) =? Z.of_nat (pipeline_depth w) - 1)%Z.
    + destruct (accuracy_quotient_pure (get_num_batches d) (fst c) (snd c)
                  (final (MLP_train s1))) as [Hf Ht].
      rewrite Hf, Ht, app_nil_r. reflexivity.
    + reflexivity.
  - rewrite (bind_Raise _ _ _ _ _ _ E). reflexivity.
Qed.
Lemma accuracy_loop_model (w : Worker) (d : Dataset) (l : list nat)
      (c : nat * nat) (o : Objects) :
  model (final (for_fold l c (TrainDDP.accuracy_batch w d) o)) = model o.
Proof.
  apply (for_fold_final (fun s => model s = model o)); [|reflexivity].
  intros a b s Hs. now rewrite accuracy_batch_model.
Qed.

Lemma accuracy_loop_events (w : Worker) (d : Dataset) (l : list nat)
      (c : nat * nat) (o : Objects) :
  Forall (TrainDDP.validation_event w)
         (trace (for_fold l c (TrainDDP.accuracy_batch w d) o)).
Proof.
  apply for_fold_trace_Forall. intros a b s.
  destruct (Z.of_nat (stage_id w) =? Z.of_nat (pipeline_depth w) - 1)%Z eqn:H.
  - rewrite accuracy_batch_last_stage by assumption. apply Z.eqb_eq in H.
    cbn [trace snd]. constructor; [|constructor; [|constructor; [|constructor]]].
    + left. now exists a.
    + right. split; [exact H | now left].
    + right. split; [exact H | right; now exists a].
  - rewrite accuracy_batch_other_stage by assumption.
    cbn [trace snd]. constructor; [|constructor]. left. now exists a.
Qed.

Lemma accuracy_loop_other_stage (w : Worker) (d : Dataset) (l : list nat)
      (c : nat * nat) (o : Objects) :
  (Z.of_nat (stage_id w) =? Z.of_nat (pipeline_depth w) - 1)%Z = false ->
  trace (for_fold l c (TrainDDP.accuracy_batch w d) o)
  = map (Execute InferenceSchedule) l
  /\ exists c', result (for_fold l c (TrainDDP.accuracy_batch w d) o) = Ok c'.
Proof.
  intros H.
  replace (map (Execute InferenceSchedule) l)
    with (flat_map (fun b => [Execute InferenceSchedule b]) l)
    by (induction l as [|a l IH]; [reflexivity | simpl; now rewrite IH]).
  apply for_fold_events. intros a b s _.
  rewrite accuracy_batch_other_stage by assumption. split; [reflexivity|].
  now exists b.
Qed.

Lemma accuracy_loop_last_stage (w : Worker) (d : Dataset) (c : nat * nat)
      (o : Objects) :
  (Z.of_nat (stage_id w) =? Z.of_nat (pipeline_depth w) - 1)%Z = true ->
  mubatch_size d <= batch_size d ->
  trace (for_fold (Py.range (get_num_batches d)) c (TrainDDP.accuracy_batch w d) o)
  = flat_map (fun b => [Execute InferenceSchedule b; ReadBuffer 1; LoadTarget b 0])
             (Py.range (get_num_batches d))
  /\ exists c', result (for_fold (Py.range (get_num_batches d)) c
                          (TrainDDP.accuracy_batch w d) o) = Ok c'.
Proof.
  intros H Hmu. apply for_fold_events. intros a b s Ha.
  rewrite accuracy_batch_last_stage by assumption.
  apply in_seq in Ha.
  assert (Hin : micro_batch_in_range d a 0 = true).
  { unfold micro_batch_in_range. apply andb_true_intro. split.
    - apply Nat.ltb_lt. lia.
    - apply Nat.leb_le. lia. }
  rewrite Hin. split; [reflexivity|]. eexists. reflexivity.
Qed.
(** The loop can only fail on a target read out of range. *)
Lemma accuracy_loop_raises (w : Worker) (d : Dataset) (l : list nat)
      (c : nat * nat) (o : Objects) (e : Py.exn) :
  result (for_fold l c (TrainDDP.accuracy_batch w d) o) = Raise e ->
  e = Py.IndexError.
Proof.
  revert c o. induction l as [|a l IH]; intros c o E; [discriminate E|].
  simpl in E.
  destruct (TrainDDP.accuracy_batch w d a c o) as [[[c'|e'] s2] t2] eqn:Eb.
  - rewrite (bind_Ok _ _ _ _ _ _ Eb) in E. cbn [result fst] in E.
    now apply (IH c' s2).
  - rewrite (bind_Raise _ _ _ _ _ _ Eb) in E. cbn [result fst] in E.
    injection E as ->.
    destruct (Z.of_nat (stage_id w) =? Z.of_nat (pipeline_depth w) - 1)%Z eqn:H.
    + rewrite accuracy_batch_last_stage in Eb by assumption.
      destruct (micro_batch_in_range d a 0); [discriminate Eb|].
      now injection Eb as <- _.
    + rewrite accuracy_batch_other_stage in Eb by assumption. discriminate Eb.
Qed.

Lemma compute_accuracy_trace (w : Worker) (d : Dataset) (o : Objects) :
  trace (TrainDDP.compute_accuracy w d o)
  = ModelEval
      :: trace (for_fold (Py.range (get_num_batches d)) (0, 0)
                  (TrainDDP.accuracy_batch w d) (final (MLP_eval o)))
      ++ match result (TrainDDP.compute_accuracy w d o) with
         | Raise Py.IndexError => []
         | _ => [ModelTrain]
         end.
Proof.
  rewrite compute_accuracy_run.
  destruct (for_fold (Py.range (get_num_batches d)) (0, 0)
              (TrainDDP.accuracy_batch w d) (final (MLP_eval o)))
    as [[[c|e] s1] t1] eqn:E; cbn [result final trace fst snd].
  - destruct (Z.of_nat (stage_id w) =? Z.of_nat (pipeline_depth w) - 1)%Z;
      [|reflexivity].
    unfold TrainDDP.accuracy_quotient.
    destruct (snd c); [destruct (get_num_batches d =? 0)|]; reflexivity.
  - assert (He : e = Py.IndexError); [|subst e; now rewrite app_nil_r].
    apply (accuracy_loop_raises w d (Py.range (get_num_batches d)) (0, 0)
             (final (MLP_eval o))).
    now rewrite E.
Qed.

Lemma compute_accuracy_model (w : Worker) (d : Dataset) (o : Objects) :
  model (final (TrainDDP.compute_accuracy w d o))
  = set_training
      match result (TrainDDP.compute_accuracy w d o) with
      | Raise Py.IndexError => false
      | _ => true
      end
      (model o).
Proof.
  pose proof (compute_accuracy_trace w d o) as Ht. revert Ht.
  rewrite compute_accuracy_run.
  destruct (for_fold (Py.range (get_num_batches d)) (0, 0)
              (TrainDDP.accuracy_batch w d) (final (MLP_eval o)))
    as [[[c|e] s1] t1] eqn:E; cbn [result final trace fst snd]; intros Ht.
  - pose proof (accuracy_loop_model w d (Py.range (get_num_batches d)) (0, 0)
                  (final (MLP_eval o))) as Hm.
    rewrite E in Hm. cbn [final fst snd] in Hm.
    assert (Hs : model (final (MLP_train s1)) = set_training true (model o)).
    { cbn. now rewrite Hm. }
    rewrite Hs.
    destruct (Z.of_nat (stage_id w) =? Z.of_nat (pipeline_depth w) - 1)%Z;
      [|reflexivity].
    unfold TrainDDP.accuracy_quotient.
    destruct (snd c); [destruct (get_num_batches d =? 0)|]; reflexivity.
  - pose proof (accuracy_loop_model w d (Py.range (get_num_batches d)) (0, 0)
                  (final (MLP_eval o))) as Hm.
    rewrite E in Hm. cbn [final fst snd] in Hm.
    rewrite Hm. destruct e; try reflexivity;
      injection Ht as Ht; apply (f_equal (@length _)) in Ht;
      rewrite length_app in Ht; simpl in Ht; lia.
Qed.

Lemma compute_accuracy_other_stage (w : Worker) (d : Dataset) (o : Objects) :
  (Z.of_nat (stage_id w) =? Z.of_nat (pipeline_depth w) - 1)%Z = false ->
  result (TrainDDP.compute_accuracy w d o) = Ok Py.PyNone
  /\ trace (TrainDDP.compute_accuracy w d o)
     = ModelEval :: map (Execute InferenceSchedule) (Py.range (get_num_batches d))
                 ++ [ModelTrain].
Proof.
  intros H.
  destruct (accuracy_loop_other_stage w d (Py.range (get_num_batches d)) (0, 0)
              (final (MLP_eval o)) H) as [Ht [c Hc]].
  assert (Hr : result (TrainDDP.compute_accuracy w d o) = Ok Py.PyNone).
  { rewrite compute_accuracy_run, Hc, H. reflexivity. }
  split; [exact Hr|]. now rewrite compute_accuracy_trace, Hr, Ht.
Qed.

Lemma compute_accuracy_last_stage (w : Worker) (d : Dataset) (o : Objects) :
  (Z.of_nat (stage_id w) =? Z.of_nat (pipeline_depth w) - 1)%Z = true ->
  mubatch_size d <= batch_size d ->
  trace (TrainDDP.compute_accuracy w d o)
  = ModelEval
      :: flat_map (fun b => [Execute InferenceSchedule b; ReadBuffer 1; LoadTarget b 0])
                  (Py.range (get_num_batches d))
      ++ [ModelTrain]
  /\ result (TrainDDP.compute_accuracy w d o) <> Ok Py.PyNone
  /\ (0 < get_num_batches d ->
      exists v, result (TrainDDP.compute_accuracy w d o) = Ok v).
Proof.
  intros H Hmu.
  destruct (accuracy_loop_last_stage w d (0, 0) (final (MLP_eval o)) H Hmu)
    as [Ht [c Hc]].
  assert (Hr : result (TrainDDP.compute_accuracy w d o)
               = result (TrainDDP.accuracy_quotient (get_num_batches d)
                           (fst c) (snd c)
                           (final (MLP_train
                              (final (for_fold (Py.range (get_num_batches d)) (0, 0)
                                 (TrainDDP.accuracy_batch w d) (final (MLP_eval o)))))))).
  { rewrite compute_accuracy_run, Hc, H. reflexivity. }
  split; [|split].
  - rewrite compute_accuracy_trace, Ht, Hr.
    unfold TrainDDP.accuracy_quotient.
    destruct (snd c); [destruct (get_num_batches d =? 0)|]; reflexivity.
  - rewrite Hr. unfold TrainDDP.accuracy_quotient.
    destruct (snd c); [destruct (get_num_batches d =? 0)|]; discriminate.
  - intros Hn. rewrite Hr. unfold TrainDDP.accuracy_quotient.
    destruct (snd c); [|eexists; reflexivity].
    destruct (Nat.eqb_spec (get_num_batches d) 0); [lia|].
    eexists; reflexivity.
Qed.
End AccuracyFacts.





(** ** The accuracy reports of the pipelined driver *)

Section ReportFacts.
Import Run MinMLP.
Context {num : Numeric}.

Lemma compute_accuracy_prints_nothing (w : Worker) (d : Dataset) (o : Objects)
      (k : nat) (a : Py.value) :
  ~ In (PrintLine k a) (trace (TrainDDP.compute_accuracy w d o)).
Proof.
  rewrite compute_accuracy_trace. intros [Hin|Hin]; [discriminate Hin|].
  apply in_app_or in Hin as [Hin|Hin].
  - pose proof (accuracy_loop_events w d (Py.range (get_num_batches d))
                  (0, 0) (final (MLP_eval o))) as Hev.
    rewrite Forall_forall in Hev. specialize (Hev _ Hin).
    destruct Hev as [[b Hb]|[Hlast [Hr|[b Hb]]]]; discriminate.
  - destruct (result (TrainDDP.compute_accuracy w d o)) as [v|e];
      [|destruct e]; simpl in Hin; intuition discriminate.
Qed.

Lemma epoch_validation_trace (w : Worker) (d : Dataset) (i : nat) (o : Objects) :
  trace (TrainDDP.epoch_validation w d i o)
  = trace (TrainDDP.compute_accuracy w d o)
    ++ match result (TrainDDP.compute_accuracy w d o) with
       | Ok a => if Py.truthy a then [PrintLine i a] else []
       | Raise _ => []
       end.
Proof.
  unfold TrainDDP.epoch_validation, TrainDDP.report_epoch.
  destruct (TrainDDP.compute_accuracy w d o) as [[[a|e] s1] t1] eqn:E.
  - rewrite (bind_Ok _ _ _ _ _ _ E). cbn [result final trace fst snd].
    destruct (Py.truthy a); reflexivity.
  - rewrite (bind_Raise _ _ _ _ _ _ E). cbn [result final trace fst snd].
    now rewrite app_nil_r.
Qed.

Lemma final_validation_trace (w : Worker) (d : Dataset) (o : Objects) :
  trace (TrainDDP.final_validation w d o)
  = trace (TrainDDP.compute_accuracy w d o)
    ++ match result (TrainDDP.compute_accuracy w d o) with
       | Ok a => if Py.is_not_None a then [PrintLine TrainDDP.EPOCHS a] else []
       | Raise _ => []
       end.
Proof.
  unfold TrainDDP.final_validation, TrainDDP.report_final.
  destruct (TrainDDP.compute_accuracy w d o) as [[[a|e] s1] t1] eqn:E.
  - rewrite (bind_Ok _ _ _ _ _ _ E). cbn [result final trace fst snd].
    destruct (Py.is_not_None a); reflexivity.
  - rewrite (bind_Raise _ _ _ _ _ _ E). cbn [result final trace fst snd].
    now rewrite app_nil_r.
Qed.
End ReportFacts.

(** C10. In the pipelined driver the epoch line of iteration [i] is printed
    exactly when [compute_accuracy] returned a truthy value, and the final
    line exactly when it returned a value that is not [None];
    [compute_accuracy] itself prints nothing.  So an accuracy of exactly 0.0
    gives no epoch line, but it does give the final line. *)
Theorem accuracy_report_conditions {num : MinMLP.Numeric}
        (w : MinMLP.Worker) (d : MinMLP.Dataset) (o : MinMLP.Objects) :
  (forall i k a,
      In (Run.PrintLine k a) (Run.trace (TrainDDP.epoch_validation w d i o))
      <-> k = i
          /\ Run.result (TrainDDP.compute_accuracy w d o) = Run.Ok a
          /\ Py.truthy a = true)
  /\ (forall k a,
      In (Run.PrintLine k a) (Run.trace (TrainDDP.final_validation w d o))
      <-> k = TrainDDP.EPOCHS
          /\ Run.result (TrainDDP.compute_accuracy w d o) = Run.Ok a
          /\ a <> Py.PyNone)
  /\ (forall q,
      Run.result (TrainDDP.compute_accuracy w d o) = Run.Ok (Py.PyFloat q) ->
      (q == 0)%Q ->
      (forall i k a,
          ~ In (Run.PrintLine k a) (Run.trace (TrainDDP.epoch_validation w d i o)))
      /\ In (Run.PrintLine TrainDDP.EPOCHS (Py.PyFloat q))
            (Run.trace (TrainDDP.final_validation w d o))).
Proof.
  assert (Hepoch : forall i k a,
      In (Run.PrintLine k a) (Run.trace (TrainDDP.epoch_validation w d i o))
      <-> k = i
          /\ Run.result (TrainDDP.compute_accuracy w d o) = Run.Ok a
          /\ Py.truthy a = true).
  { intros i k a. rewrite epoch_validation_trace, in_app_iff. split.
    - intros [Hin|Hin]; [now apply compute_accuracy_prints_nothing in Hin|].
      destruct (Run.result (TrainDDP.compute_accuracy w d o)) as [v|e];
        [|contradiction].
      destruct (Py.truthy v) eqn:Hv; [|contradiction].
      destruct Hin as [Hin|[]]. injection Hin as -> ->. auto.
    - intros [-> [Hr Ht]]. right. rewrite Hr, Ht. now left. }
  assert (Hfinal : forall k a,
      In (Run.PrintLine k a) (Run.trace (TrainDDP.final_validation w d o))
      <-> k = TrainDDP.EPOCHS
          /\ Run.result (TrainDDP.compute_accuracy w d o) = Run.Ok a
          /\ a <> Py.PyNone).
  { intros k a. rewrite final_validation_trace, in_app_iff. split.
    - intros [Hin|Hin]; [now apply compute_accuracy_prints_nothing in Hin|].
      destruct (Run.result (TrainDDP.compute_accuracy w d o)) as [v|e];
        [|contradiction].
      destruct v; simpl in Hin; try contradiction;
        destruct Hin as [Hin|[]]; injection Hin as <- <-;
        repeat split; discriminate.
    - intros [-> [Hr Ha]]. right. rewrite Hr.
      destruct a; [contradiction | now left | now left]. }
  split; [exact Hepoch|]. split; [exact Hfinal|].
  intros q Hr Hq. split.
  - intros i k a Hin. apply Hepoch in Hin as [_ [Hr' Ht]].
    rewrite Hr in Hr'. injection Hr' as <-.
    simpl in Ht. apply Qeq_bool_iff in Hq. rewrite Hq in Ht. discriminate Ht.
  - apply Hfinal. repeat split; [exact Hr | discriminate].
Qed.

Lemma accuracy_report_conditions_witness :
  Run.result (TrainDDP.compute_accuracy Toy.last_stage_worker Toy.dataset
                (Toy.objects 1)) = Run.Ok (Py.PyFloat (0 # 2))
  /\ (0 # 2 == 0)%Q
  /\ Run.trace (TrainDDP.epoch_validation Toy.last_stage_worker Toy.dataset 3
                  (Toy.objects 1))
     = [Run.ModelEval; Run.Execute Run.InferenceSchedule 0; Run.ReadBuffer 1;
        Run.LoadTarget 0 0; Run.ModelTrain]
  /\ In (Run.PrintLine TrainDDP.EPOCHS (Py.PyFloat (0 # 2)))
        (Run.trace (TrainDDP.final_validation Toy.last_stage_worker Toy.dataset
                      (Toy.objects 1))).
Proof.
  split; [reflexivity|]. split; [reflexivity|]. split; [reflexivity|].
  apply (accuracy_report_conditions (num := Toy.numeric)
           Toy.last_stage_worker Toy.dataset (Toy.objects 1)).
  - reflexivity.
  - reflexivity.
Defined.

(** ** A data-parallel group in lock step *)

Section GroupFacts.
Import Run MinMLP World.
Context {num : Numeric}.

Lemma collect_spec {A : Type} (outs : list (Res A * Objects * list Event))
      (os' : list Objects) :
  collect outs = Some os' <->
  os' = map final outs /\ Forall (fun out => exists a, result out = Ok a) outs.
Proof.
  revert os'. induction outs as [|out outs IH]; intros os'; simpl.
  - split.
    + intros E. injection E as <-. now split.
    + intros [-> _]. reflexivity.
  - destruct (result out) as [a|e] eqn:Hr.
    + destruct (collect outs) as [os|] eqn:Hc.
      * destruct (proj1 (IH os) eq_refl) as [-> Hall]. split.
        -- intros E. injection E as <-. split; [reflexivity|].
           constructor; [now exists a | exact Hall].
        -- intros [-> _]. reflexivity.
      * split; [discriminate|]. intros [_ Hall].
        inversion Hall as [|? ? _ Hall']; subst.
        assert (None = Some (map final outs)) as E
            by (apply (IH (map final outs)); now split).
        discriminate E.
    + split; [discriminate|]. intros [_ Hall].
      inversion Hall as [|? ? [a Ha] _]; subst. rewrite Hr in Ha. discriminate Ha.
Qed.

Lemma locally_spec {A : Type} (acts : list (M Objects A)) (os os' : list Objects) :
  locally acts os = Some os' ->
  os' = map (fun ao => final (fst ao (snd ao))) (combine acts os).
Proof.
  unfold locally. intros E. apply collect_spec in E as [-> _].
  now rewrite map_map.
Qed.

Lemma locally_returns {A : Type} (acts : list (M Objects A)) (os : list Objects) :
  (forall a o, In a acts -> exists v, result (a o) = Ok v) ->
  exists os', locally acts os = Some os'.
Proof.
  intros H. eexists. unfold locally. apply collect_spec. split; [reflexivity|].
  apply Forall_map, Forall_forall. intros [a o] Hin.
  apply in_combine_l in Hin. now apply H.
Qed.

Lemma locally_length {A : Type} (acts : list (M Objects A)) (os os' : list Objects) :
  length acts = length os -> locally acts os = Some os' -> length os' = length os.
Proof.
  intros Hl E. apply locally_spec in E. subst os'.
  rewrite length_map, length_combine. lia.
Qed.

(** Every member ends a local piece of program with parameters [p'] when
    the piece takes any member with parameters [p] there. *)
Lemma locally_params {A : Type} (acts : list (M Objects A)) (os os' : list Objects)
      (p p' : Params) :
  (forall a o, In a acts -> params (model o) = p ->
               params (model (final (a o))) = p') ->
  Forall (fun o => params (model o) = p) os ->
  locally acts os = Some os' ->
  Forall (fun o => params (model o) = p') os'.
Proof.
  intros Hact Hos E. apply locally_spec in E. subst os'.
  apply Forall_map, Forall_forall. intros [a o] Hin. simpl.
  apply Hact; [now apply in_combine_l in Hin|].
  apply in_combine_r in Hin. rewrite Forall_forall in Hos. now apply Hos.
Qed.

Lemma in_sync_params (os : list Objects) :
  in_sync os <-> exists p, Forall (fun o => params (model o) = p) os.
Proof.
  split.
  - intros H. destruct os as [|o os].
    + exists (params (model (Build_Objects (new_MLP (sum_params [])) (fun _ => []) 0))).
      constructor.
    + exists (params (model o)). apply Forall_forall. intros o' Ho'.
      apply H; [exact Ho' | now left].
  - intros [p Hp] o o' Ho Ho'. rewrite Forall_forall in Hp.
    now rewrite (Hp o Ho), (Hp o' Ho').
Qed.

Lemma in_sync_short (os : list Objects) : length os <= 1 -> in_sync os.
Proof.
  intros H o o' Ho Ho'.
  destruct os as [|a [|b os]]; [contradiction | | simpl in H; lia].
  destruct Ho as [<-|[]], Ho' as [<-|[]]. reflexivity.
Qed.

(** The hash comparison succeeds on every member of a group in sync. *)
Lemma check_sync_passes (os : list Objects) :
  in_sync os -> Forall (fun r => r = Ok tt) (check_sync os).
Proof.
  intros H. unfold check_sync. apply Forall_map, Forall_forall. intros o Ho.
  unfold get_model_hash, assert_sync, count_collective, assert, group, bind.
  simpl.
  replace (forallb (Z.eqb (model_hash (params (model o))))
             (map (fun o0 => model_hash (params (model o0))) os)) with true;
    [reflexivity|].
  symmetry. apply forallb_forall. intros h Hh.
  apply in_map_iff in Hh as [o' [<- Ho']].
  rewrite (H o o' Ho Ho'). apply Z.eqb_refl.
Qed.

Section LockstepFacts.
Context {B : Type}.
Variable contribution : Objects -> B -> Params.
Variable step : Peers -> B -> M Objects unit.
Variable good : B -> Prop.
Variable update : Params -> Params -> Params.

(** A step that is given the reduced gradient [g] takes parameters [p] to
    [update p g], whatever else the member holds. *)
Hypothesis step_params :
  forall g b o, good b ->
    params (model (final (step (group (fun _ => g) (fun h => [h])) b o)))
    = update (params (model o)) g.

Lemma pick_good (k : nat) (work : list (list B)) (bs : list B) :
  Forall (Forall good) work -> pick k work = Some bs -> Forall good bs.
Proof.
  revert bs. induction work as [|w work IH]; intros bs Hw E; simpl in E.
  - injection E as <-. constructor.
  - inversion Hw as [|? ? Hgw Hgwork]; subst.
    destruct (nth_error w k) as [b|] eqn:Hb; [|discriminate E].
    destruct (pick k work) as [bs'|]; [|discriminate E].
    injection E as <-. constructor; [|now apply IH].
    rewrite Forall_forall in Hgw. apply Hgw. now apply nth_error_In in Hb.
Qed.

Lemma round_params (bs : list B) (os os' : list Objects) (p : Params) :
  Forall good bs ->
  Forall (fun o => params (model o) = p) os ->
  round contribution step bs os = Some os' ->
  exists p', Forall (fun o => params (model o) = p') os'.
Proof.
  intros Hbs Hos E. unfold round in E. eexists.
  refine (locally_params _ os os' p _ _ Hos E).
  intros a o Ha Hp. apply in_map_iff in Ha as [b [<- Hb]].
  rewrite Forall_forall in Hbs. rewrite (step_params _ b o (Hbs b Hb)), Hp.
  reflexivity.
Qed.

Lemma rounds_params (ks : list nat) (work : list (list B)) :
  Forall (Forall good) work ->
  forall os os' p,
    Forall (fun o => params (model o) = p) os ->
    rounds contribution step ks work os = Some os' ->
    exists p', Forall (fun o => params (model o) = p') os'.
Proof.
  intros Hw. induction ks as [|k ks IH]; intros os os' p Hos E; simpl in E.
  - injection E as <-. now exists p.
  - destruct (pick k work) as [bs|] eqn:Hpick; [|discriminate E].
    destruct (round contribution step bs os) as [os1|] eqn:Hround; [|discriminate E].
    destruct (round_params bs os os1 p (pick_good k work bs Hw Hpick) Hos Hround)
      as [p1 Hp1].
    exact (IH os1 os' p1 Hp1 E).
Qed.

Lemma lockstep_params (work : list (list B)) (os os' : list Objects) (p : Params) :
  Forall (Forall good) work ->
  Forall (fun o => params (model o) = p) os ->
  lockstep contribution step work os = Some os' ->
  exists p', Forall (fun o => params (model o) = p') os'.
Proof.
  intros Hw Hos E. unfold lockstep in E. destruct work as [|w0 work'].
  - injection E as <-. now exists p.
  - destruct (forallb _ _); [|discriminate E].
    exact (rounds_params _ _ Hw os os' p Hos E).
Qed.

Lemma epochs_params (its : list nat) (validate : nat -> list (M Objects unit))
      (work : list (list B)) :
  Forall (Forall good) work ->
  (forall i a o, In a (validate i) ->
     params (model (final (a o))) = params (model o)) ->
  forall os os' p,
    Forall (fun o => params (model o) = p) os ->
    epochs contribution step its validate work os = Some os' ->
    exists p', Forall (fun o => params (model o) = p') os'.
Proof.
  intros Hw Hval. induction its as [|i its IH]; intros os os' p Hos E; simpl in E.
  - injection E as <-. now exists p.
  - destruct (locally (validate i) os) as [os1|] eqn:E1; [|discriminate E].
    destruct (lockstep contribution step work os1) as [os2|] eqn:E2; [|discriminate E].
    assert (H1 : Forall (fun o => params (model o) = p) os1).
    { refine (locally_params _ os os1 p p _ Hos E1).
      intros a o Ha Hp. now rewrite (Hval i a o Ha). }
    destruct (lockstep_params work os1 os2 p Hw H1 E2) as [p2 H2].
    exact (IH os2 os' p2 H2 E).
Qed.

(** A run that completes ends with the group in sync and the hash
    comparison passed on every member. *)
Lemma run_in_sync (n : nat) (init : list (M Objects unit))
      (validate : nat -> list (M Objects unit)) (work : list (list B))
      (os os' : list Objects) (results : list (Res unit)) (p0 : Params) :
  Forall (Forall good) work ->
  (forall a o, In a init -> params (model (final (a o))) = p0) ->
  (forall i a o, In a (validate i) ->
     params (model (final (a o))) = params (model o)) ->
  run contribution step n init validate work os = Some (os', results) ->
  in_sync os' /\ Forall (fun r => r = Ok tt) results.
Proof.
  intros Hw Hinit Hval E. unfold run in E.
  destruct (locally init os) as [os1|] eqn:E1; [|discriminate E].
  destruct (epochs contribution step (Py.range n) validate work os1)
    as [os2|] eqn:E2; [|discriminate E].
  destruct (locally (validate n) os2) as [os3|] eqn:E3; [|discriminate E].
  injection E as <- <-.
  assert (H1 : Forall (fun o => params (model o) = p0) os1).
  { apply locally_spec in E1. subst os1.
    apply Forall_map, Forall_forall. intros [a o] Hin. simpl.
    apply Hinit. now apply in_combine_l in Hin. }
  destruct (epochs_params _ validate work Hw Hval os1 os2 p0 H1 E2) as [p2 H2].
  assert (H3 : in_sync os3).
  { apply in_sync_params. exists p2.
    refine (locally_params _ os2 os3 p2 p2 _ H2 E3).
    intros a o Ha Hp. now rewrite (Hval n a o Ha). }
  split; [exact H3 | now apply check_sync_passes].
Qed.
(** Completion: every step returns, and every member has the same number of
    work items. *)
Hypothesis step_returns :
  forall peers b o, good b -> exists v, result (step peers b o) = Ok v.

Lemma round_returns (bs : list B) (os : list Objects) :
  Forall good bs -> length bs = length os ->
  exists os', round contribution step bs os = Some os' /\ length os' = length os.
Proof.
  intros Hbs Hl. unfold round.
  destruct (locally_returns
              (map (step (group (fun _ => allreduce (map (fun ob => contribution (fst ob) (snd ob))
                                                         (combine os bs)))
                                (fun h => [h]))) bs) os) as [os' E].
  - intros a o Ha. apply in_map_iff in Ha as [b [<- Hb]].
    rewrite Forall_forall in Hbs. apply step_returns. now apply Hbs.
  - exists os'. split; [exact E|].
    apply (locally_length _ os os') in E; [exact E|].
    now rewrite length_map.
Qed.

Lemma pick_returns (k n : nat) (work : list (list B)) :
  Forall (fun w => length w = n) work -> k < n ->
  exists bs, pick k work = Some bs /\ length bs = length work.
Proof.
  intros Hw Hk. induction Hw as [|w work Hlen Hwork [bs [Ebs Hbs]]].
  - exists []. now split.
  - simpl. destruct (nth_error w k) as [b|] eqn:Hb.
    + rewrite Ebs. exists (b :: bs). split; [reflexivity|]. simpl. now rewrite Hbs.
    + apply nth_error_None in Hb. lia.
Qed.

Lemma rounds_returns (ks : list nat) (n : nat) (work : list (list B)) :
  Forall (Forall good) work ->
  Forall (fun w => length w = n) work ->
  Forall (fun k => k < n) ks ->
  forall os, length os = length work ->
    exists os', rounds contribution step ks work os = Some os'
                /\ length os' = length os.
Proof.
  intros Hg Hw Hks. induction Hks as [|k ks Hk Hks IH]; intros os Hl; simpl.
  - now exists os.
  - destruct (pick_returns k n work Hw Hk) as [bs [Ebs Hbs]]. rewrite Ebs.
    destruct (round_returns bs os (pick_good k work bs Hg Ebs)) as [os1 [E1 H1]];
      [lia|].
    rewrite E1. destruct (IH os1) as [os' [E' H']]; [lia|].
    exists os'. split; [exact E' | lia].
Qed.

Lemma lockstep_returns (work : list (list B)) (os : list Objects) :
  Forall (Forall good) work ->
  (forall w w', In w work -> In w' work -> length w = length w') ->
  length os = length work ->
  exists os', lockstep contribution step work os = Some os'
              /\ length os' = length os.
Proof.
  intros Hg Hsame Hl. unfold lockstep. destruct work as [|w0 work'] eqn:Ework.
  - now exists os.
  - rewrite <- Ework in *.
    assert (Hw : Forall (fun w => length w = length w0) work).
    { apply Forall_forall. intros w Hin. apply Hsame; [exact Hin|].
      rewrite Ework. now left. }
    replace (forallb (fun w => length w =? length w0) work) with true.
    + apply (rounds_returns _ (length w0) work Hg Hw); [|exact Hl].
      apply Forall_forall. intros k Hk. now apply in_seq in Hk.
    + symmetry. apply forallb_forall. intros w Hin. apply Nat.eqb_eq.
      rewrite Forall_forall in Hw. now apply Hw.
Qed.

Lemma epochs_returns (its : list nat) (validate : nat -> list (M Objects unit))
      (work : list (list B)) :
  Forall (Forall good) work ->
  (forall w w', In w work -> In w' work -> length w = length w') ->
  (forall i a o, In a (validate i) -> exists v, result (a o) = Ok v) ->
  (forall i, length (validate i) = length work) ->
  forall os, length os = length work ->
    exists os', epochs contribution step its validate work os = Some os'
                /\ length os' = length os.
Proof.
  intros Hg Hsame Hval Hlen. induction its as [|i its IH]; intros os Hl; simpl.
  - now exists os.
  - destruct (locally_returns (validate i) os (Hval i)) as [os1 E1].
    rewrite E1. apply locally_length in E1; [|rewrite Hlen; lia].
    destruct (lockstep_returns work os1 Hg Hsame) as [os2 [E2 H2]]; [lia|].
    rewrite E2. destruct (IH os2) as [os' [E' H']]; [lia|].
    exists os'. split; [exact E' | lia].
Qed.

Lemma run_returns (n : nat) (init : list (M Objects unit))
      (validate : nat -> list (M Objects unit)) (work : list (list B))
      (os : list Objects) :
  Forall (Forall good) work ->
  (forall w w', In w work -> In w' work -> length w = length w') ->
  (forall a o, In a init -> exists v, result (a o) = Ok v) ->
  (forall i a o, In a (validate i) -> exists v, result (a o) = Ok v) ->
  length init = length work ->
  (forall i, length (validate i) = length work) ->
  length os = length work ->
  exists os' results,
    run contribution step n init validate work os = Some (os', results)
    /\ length os' = length os.
Proof.
  intros Hg Hsame Hinit Hval Hli Hlv Hl. unfold run.
  destruct (locally_returns init os Hinit) as [os1 E1].
  rewrite E1. apply locally_length in E1; [|lia].
  destruct (epochs_returns (Py.range n) validate work Hg Hsame Hval Hlv os1)
    as [os2 [E2 H2]]; [lia|].
  rewrite E2.
  destruct (locally_returns (validate n) os2 (Hval n)) as [os3 E3].
  rewrite E3. apply locally_length in E3; [|rewrite Hlv; lia].
  exists os3, (check_sync os3). split; [reflexivity | lia].
Qed.
End LockstepFacts.
End GroupFacts.

(** ** The groups of the two drivers *)

Section DriverGroupFacts.
Import Run MinMLP World.
Context {num : Numeric}.

Lemma nn_step_params (size : nat) (g : Params) (b : list Row * list Row)
      (o : Objects) :
  size <> 1 ->
  params (model (final (nn_step size (group (fun _ => g) (fun h => [h])) b o)))
  = sgd_update NNFromScratch.learning_rate (params (model o)) g.
Proof.
  intros Hs. unfold nn_step. apply Nat.eqb_neq in Hs. rewrite Hs.
  now destruct (train_batch_run DistributedMLP (group (fun _ => g) (fun h => [h]))
                  (fst b) (snd b) o) as [_ [_ ->]].
Qed.

(** What a member hands to the all-reduce in [train_batch] is the gradient
    of its own batch. *)
Lemma nn_contribution_reduced (comm : Peers) (b : list Row * list Row) (o : Objects) :
  NNFromScratch.batch_gradient DistributedMLP comm o (fst b) (snd b)
  = allreduce_mean comm (collectives o) (nn_contribution o b).
Proof. reflexivity. Qed.

Lemma nn_step_returns (size : nat) (peers : Peers) (b : list Row * list Row)
      (o : Objects) :
  exists v, result (nn_step size peers b o) = Ok v.
Proof. exists tt. unfold nn_step. apply train_batch_run. Qed.

Lemma nn_validate_run (x_val y_val : list Row) (epoch rank : nat) (o : Objects) :
  (exists v, result (nn_validate x_val y_val epoch rank o) = Ok v)
  /\ params (model (final (nn_validate x_val y_val epoch rank o)))
     = params (model o).
Proof.
  unfold nn_validate, rprint, NNFromScratch.compute_accuracy.
  destruct (rank =? 0); split; try reflexivity; eexists; reflexivity.
Qed.

Lemma accumulate_gradients_run (w : Worker) (s : Schedule) (b : nat) (o : Objects) :
  result (accumulate_gradients w s b o) = Ok tt
  /\ params (model (final (accumulate_gradients w s b o))) = params (model o).
Proof.
  unfold accumulate_gradients.
  rewrite (bind_Ok MLP_zero_grad _ o tt (final (MLP_zero_grad o)) [ZeroGrad] eq_refl).
  cbn [result final trace fst snd]. split.
  - apply for_each_returns. reflexivity.
  - apply (for_each_final (fun s' => params (model s') = params (model o)));
      [|reflexivity].
    intros a s' Hs'. exact Hs'.
Qed.

Lemma ddp_step_run (peers : Peers) (b : Worker * Schedule * nat) (o : Objects) :
  ddp_item b ->
  result (ddp_step peers b o) = Ok tt
  /\ params (model (final (ddp_step peers b o)))
     = sgd_update TrainDDP.learning_rate (params (model o))
         (allreduce_mean peers
            (collectives (final (accumulate_gradients (fst (fst b)) (snd (fst b)) (snd b) o)))
            (grads (model (final (accumulate_gradients (fst (fst b)) (snd (fst b)) (snd b) o))))).
Proof.
  destruct b as [[w s] b]. intros [Hk [[peers0 Hc] Ho]]. simpl in Hk, Hc, Ho.
  unfold ddp_step, Worker_execute. cbn [fst snd]. rewrite Hk.
  unfold execute_training, in_group. cbn [worker_dp_comm worker_optimizer].
  rewrite Hc, Ho.
  destruct (accumulate_gradients_run
              {| stage_id := stage_id w; pipeline_depth := pipeline_depth w;
                 worker_dp_comm := Some peers;
                 worker_optimizer := Some TrainDDP.learning_rate;
                 stage_output := stage_output w;
                 stage_gradient := stage_gradient w |} s b o) as [Hr Hp].
  assert (Hsame : accumulate_gradients
              {| stage_id := stage_id w; pipeline_depth := pipeline_depth w;
                 worker_dp_comm := Some peers;
                 worker_optimizer := Some TrainDDP.learning_rate;
                 stage_output := stage_output w;
                 stage_gradient := stage_gradient w |} s b o
            = accumulate_gradients w s b o) by reflexivity.
  rewrite Hsame in *.
  destruct (accumulate_gradients w s b o) as [[r s1] t1] eqn:E.
  cbn [result final trace fst snd] in Hr, Hp. subst r.
  rewrite (bind_Ok (emit (Execute DataParallelSchedule b)) _ o tt o
             [Execute DataParallelSchedule b] eq_refl).
  rewrite (bind_Ok _ _ o tt s1 t1 Hsame).
  cbn. rewrite Hp. split; reflexivity.
Qed.
Lemma ddp_batches_items (env : TrainDDP.Env) : Forall ddp_item (ddp_batches env).
Proof.
  apply Forall_forall. intros b Hb. unfold ddp_batches in Hb.
  apply in_map_iff in Hb as [k [<- _]].
  split; [reflexivity|]. split; [|reflexivity]. now exists (TrainDDP.dp_peers env).
Qed.

Lemma epoch_validation_run (w : Worker) (d : Dataset) (i : nat) (o : Objects) :
  final (TrainDDP.epoch_validation w d i o) = final (TrainDDP.compute_accuracy w d o)
  /\ ((exists v, result (TrainDDP.compute_accuracy w d o) = Ok v) ->
      exists u, result (TrainDDP.epoch_validation w d i o) = Ok u).
Proof.
  unfold TrainDDP.epoch_validation, TrainDDP.report_epoch.
  destruct (TrainDDP.compute_accuracy w d o) as [[[a|e] s1] t1] eqn:E.
  - rewrite (bind_Ok _ _ _ _ _ _ E).
    destruct (Py.truthy a); split; try reflexivity; intros _; now exists tt.
  - rewrite (bind_Raise _ _ _ _ _ _ E). split; [reflexivity|].
    intros [v Hv]. discriminate Hv.
Qed.

Lemma final_validation_run (w : Worker) (d : Dataset) (o : Objects) :
  final (TrainDDP.final_validation w d o) = final (TrainDDP.compute_accuracy w d o)
  /\ ((exists v, result (TrainDDP.compute_accuracy w d o) = Ok v) ->
      exists u, result (TrainDDP.final_validation w d o) = Ok u).
Proof.
  unfold TrainDDP.final_validation, TrainDDP.report_final.
  destruct (TrainDDP.compute_accuracy w d o) as [[[a|e] s1] t1] eqn:E.
  - rewrite (bind_Ok _ _ _ _ _ _ E).
    destruct (Py.is_not_None a); split; try reflexivity; intros _; now exists tt.
  - rewrite (bind_Raise _ _ _ _ _ _ E). split; [reflexivity|].
    intros [v Hv]. discriminate Hv.
Qed.

Lemma ddp_validate_params (epoch : nat) (env : TrainDDP.Env) (o : Objects) :
  params (model (final (ddp_validate epoch env o))) = params (model o).
Proof.
  unfold ddp_validate. destruct (epoch <? TrainDDP.EPOCHS).
  - rewrite (proj1 (epoch_validation_run _ _ _ _)).
    now rewrite compute_accuracy_model.
  - rewrite (proj1 (final_validation_run _ _ _)).
    now rewrite compute_accuracy_model.
Qed.

(** A single shard is the whole dataset. *)
Lemma shard_alone {A : Type} (x : list A) : Shard.shard x 0 1 = x.
Proof.
  unfold Shard.shard, Py.slice.
  rewrite Nat.min_id, slice_indices_contiguous, Nat.sub_0_r.
  apply take_rows_all.
Qed.

Lemma ddp_validate_returns (epoch : nat) (env : TrainDDP.Env) (o : Objects) :
  TrainDDP.GLOBAL_BATCH_SIZE <= length (TrainDDP.x_val_file env) ->
  exists v, result (ddp_validate epoch env o) = Ok v.
Proof.
  intros Hlen.
  assert (Hca : exists v,
             result (TrainDDP.compute_accuracy
                       (TrainDDP.val_worker env (snd (comms env)))
                       (TrainDDP.val_dataset env) o) = Ok v).
  { destruct (Z.of_nat (stage_id (TrainDDP.val_worker env (snd (comms env))))
              =? Z.of_nat (pipeline_depth (TrainDDP.val_worker env (snd (comms env)))) - 1)%Z
      eqn:H.
    - apply (compute_accuracy_last_stage _ _ o H).
      + reflexivity.
      + unfold get_num_batches, TrainDDP.val_dataset, Dataset_load.
        cbn [input_X batch_size]. rewrite shard_alone.
        apply Nat.div_str_pos. unfold TrainDDP.GLOBAL_BATCH_SIZE in *. lia.
    - exists Py.PyNone. now apply compute_accuracy_other_stage. }
  unfold ddp_validate. destruct (epoch <? TrainDDP.EPOCHS).
  - now apply epoch_validation_run.
  - now apply final_validation_run.
Qed.

Lemma run_outcome {B : Type} (contribution : Objects -> B -> Params)
      (step : Peers -> B -> M Objects unit) (n : nat)
      (init : list (M Objects unit)) (validate : nat -> list (M Objects unit))
      (work : list (list B)) (os os' : list Objects) (results : list (Res unit)) :
  run contribution step n init validate work os = Some (os', results) ->
  length os' <= length (validate n) /\ results = check_sync os'.
Proof.
  unfold run. intros E.
  destruct (locally init os) as [os1|]; [|discriminate E].
  destruct (epochs contribution step (Py.range n) validate work os1)
    as [os2|]; [|discriminate E].
  destruct (locally (validate n) os2) as [os3|] eqn:E3; [|discriminate E].
  injection E as <- <-. split; [|reflexivity].
  apply locally_spec in E3. subst os3.
  rewrite length_map, length_combine. lia.
Qed.
End DriverGroupFacts.




(** * Further properties of the drivers *)

(** ** The shard of a rank *)

Section ShardRowFacts.

Lemma take_rows_in_range {A : Type} (x : list A) (idx : list nat) (i : nat) :
  Forall (fun j => j < length x) idx ->
  nth_error (Py.take_rows x idx) i
  = match nth_error idx i with
    | Some j => nth_error x j
    | None => None
    end.
Proof.
  intros H. revert i. induction H as [|j idx Hj Hidx IH]; intros i.
  - now destruct i.
  - unfold Py.take_rows. simpl.
    destruct (nth_error x j) as [a|] eqn:Ea.
    + destruct i as [|i]; simpl; [now rewrite Ea | apply IH].
    + apply nth_error_None in Ea. lia.
Qed.

Lemma take_rows_length {A : Type} (x : list A) (idx : list nat) :
  Forall (fun j => j < length x) idx ->
  length (Py.take_rows x idx) = length idx.
Proof.
  intros H. induction H as [|j idx Hj Hidx IH]; [reflexivity|].
  unfold Py.take_rows. simpl.
  destruct (nth_error x j) as [a|] eqn:Ea.
  - simpl. f_equal. exact IH.
  - apply nth_error_None in Ea. lia.
Qed.

Lemma shard_rows_in_range (N rank size : nat) :
  0 < size -> Forall (fun j => j < N) (Shard.shard_rows N rank size).
Proof.
  intros Hs. apply Forall_forall. intros j Hj.
  unfold Shard.shard_rows in Hj. now apply in_slice_indices in Hj.
Qed.

Lemma shard_rows_length (N rank size : nat) :
  0 < size -> rank < size ->
  length (Shard.shard_rows N rank size)
  = N / size + (if rank <? N mod size then 1 else 0).
Proof.
  intros Hs Hr. unfold Shard.shard_rows, Py.slice_indices.
  rewrite length_map, length_seq. unfold Py.slice_length.
  pose proof (Nat.div_mod_eq N size) as HN.
  pose proof (Nat.mod_upper_bound N size) as Hm.
  destruct (Nat.ltb_spec rank N) as [HrN|HrN];
    destruct (Nat.ltb_spec rank (N mod size)) as [Hrm|Hrm].
  - rewrite <- (Nat.div_unique (N - rank - 1) size (N / size)
                               (N mod size - rank - 1)); lia.
  - assert (1 <= N / size) by (destruct (N / size); nia).
    rewrite <- (Nat.div_unique (N - rank - 1) size (N / size - 1)
                               (size + N mod size - rank - 1)); nia.
  - lia.
  - assert (N / size = 0) by (apply Nat.div_small; lia). lia.
Qed.
End ShardRowFacts.

Lemma shard_rows_count (A : Type) (x : list A) (size rank : nat) :
  0 < size -> rank < size ->
  length (Shard.shard x rank size)
  = length x / size + (if rank <? length x mod size then 1 else 0).
Proof.
  intros Hs Hr. rewrite shard_as_rows.
  rewrite take_rows_length by now apply shard_rows_in_range.
  now apply shard_rows_length.
Qed.

(** X1. With [size >= 1] processes, the shard of rank [r] holds
    [floor(N/size)] rows, plus one when [r < N mod size]: the shards of two
    ranks differ in length by at most one row, and they have the same
    length when [size] divides [N]. *)
Theorem shard_length (A : Type) (x : list A) (size : nat) :
  0 < size ->
  (forall rank, rank < size ->
     length (Shard.shard x rank size)
     = length x / size + (if rank <? length x mod size then 1 else 0))
  /\ (forall r r', r < size -> r' < size ->
        length (Shard.shard x r size) <= length (Shard.shard x r' size) + 1)
  /\ (length x mod size = 0 ->
      forall rank, rank < size ->
        length (Shard.shard x rank size) = length x / size).
Proof.
  intros Hs.
  assert (Hlen : forall rank, rank < size ->
     length (Shard.shard x rank size)
     = length x / size + (if rank <? length x mod size then 1 else 0)).
  { intros rank Hr. now apply shard_rows_count. }
  split; [exact Hlen|]. split.
  - intros r r' Hr Hr'. rewrite (Hlen r Hr), (Hlen r' Hr').
    destruct (r <? length x mod size), (r' <? length x mod size); lia.
  - intros Hdiv rank Hr. rewrite (Hlen rank Hr), Hdiv. simpl. lia.
Qed.

Lemma shard_length_witness :
  0 < 3
  /\ length (Shard.shard [10; 11; 12; 13; 14; 15; 16] 0 3) = 3
  /\ length (Shard.shard [10; 11; 12; 13; 14; 15; 16] 2 3) = 2.
Proof.
  split; [lia|].
  destruct (shard_length nat [10; 11; 12; 13; 14; 15; 16] 3) as [H _]; [lia|].
  split; [apply (H 0); lia | apply (H 2); lia].
Defined.

(** X2. Row [i] of the shard of rank [r] is row [r + i * size] of the
    dataset, for every [i]: the shard keeps the order of the dataset, and
    it ends exactly where [r + i * size] leaves the dataset. *)
Theorem shard_lookup (A : Type) (x : list A) (rank size i : nat) :
  0 < size ->
  nth_error (Shard.shard x rank size) i = nth_error x (rank + i * size).
Proof.
  intros Hs. rewrite shard_as_rows.
  rewrite take_rows_in_range by now apply shard_rows_in_range.
  unfold Shard.shard_rows, Py.slice_indices.
  rewrite nth_error_map.
  destruct (Nat.ltb_spec i (Py.slice_length rank (length x) size)) as [Hi|Hi].
  - rewrite nth_error_seq. apply Nat.ltb_lt in Hi. rewrite Hi. reflexivity.
  - rewrite (proj2 (nth_error_None _ _)) by (rewrite length_seq; lia).
    simpl. symmetry. apply nth_error_None.
    assert (~ rank + i * size < length x); [|lia].
    intros Hlt. apply (slice_length_spec rank (length x) size i Hs) in Hlt. lia.
Qed.

Lemma shard_lookup_witness :
  0 < 3 /\ nth_error (Shard.shard [10; 11; 12; 13; 14; 15; 16] 1 3) 1 = Some 14.
Proof.
  split; [lia|].
  rewrite (shard_lookup nat [10; 11; 12; 13; 14; 15; 16] 1 3 1); [reflexivity | lia].
Defined.

(** ** Features and targets stay paired *)

Section PairingFacts.
Context {A B : Type}.

Lemma nth_error_pair (x : list A) (y : list B) (j : nat) :
  nth_error (combine x y) j
  = match nth_error x j, nth_error y j with
    | Some a, Some b => Some (a, b)
    | _, _ => None
    end.
Proof.
  revert y j. induction x as [|a x IH]; intros y j.
  - now destruct j.
  - destruct y as [|b y]; destruct j as [|j]; simpl; try reflexivity.
    + now destruct (nth_error x j).
    + apply IH.
Qed.

Lemma take_rows_pair (x : list A) (y : list B) (idx : list nat) :
  length x = length y ->
  Py.take_rows (combine x y) idx
  = combine (Py.take_rows x idx) (Py.take_rows y idx).
Proof.
  intros Hl. induction idx as [|j idx IH]; [reflexivity|].
  unfold Py.take_rows in *. simpl. rewrite IH, nth_error_pair.
  destruct (nth_error x j) as [a|] eqn:Ea, (nth_error y j) as [b|] eqn:Eb;
    try reflexivity.
  - apply nth_error_None in Eb.
    assert (j < length x) by (apply nth_error_Some; congruence). lia.
  - apply nth_error_None in Ea.
    assert (j < length y) by (apply nth_error_Some; congruence). lia.
Qed.
End PairingFacts.

(** X3. When the feature array and the target array have the same number of
    rows, slicing them with the same bounds and step keeps the rows paired:
    the shard of a rank, and every batch of its training loop, hold in [x]
    and in [y] the rows of the same positions of the dataset. *)
Theorem slices_stay_paired (A B : Type) (x : list A) (y : list B) :
  length x = length y ->
  (forall start stop step,
      Py.slice (combine x y) start stop step
      = combine (Py.slice x start stop step) (Py.slice y start stop step))
  /\ (forall rank size,
      Shard.shard (combine x y) rank size
      = combine (Shard.shard x rank size) (Shard.shard y rank size)).
Proof.
  intros Hl.
  assert (H : forall start stop step,
      Py.slice (combine x y) start stop step
      = combine (Py.slice x start stop step) (Py.slice y start stop step)).
  { intros start stop step. unfold Py.slice.
    rewrite length_combine, <- Hl, Nat.min_id. now apply take_rows_pair. }
  split; [exact H|].
  intros rank size. unfold Shard.shard.
  rewrite length_combine, <- Hl, Nat.min_id. apply H.
Qed.

Lemma slices_stay_paired_witness :
  length [1; 2; 3; 4; 5] = length [10; 20; 30; 40; 50]
  /\ Shard.shard (combine [1; 2; 3; 4; 5] [10; 20; 30; 40; 50]) 1 2
     = [(2, 20); (4, 40)].
Proof.
  split; [reflexivity|].
  destruct (slices_stay_paired nat nat [1; 2; 3; 4; 5] [10; 20; 30; 40; 50] eq_refl)
    as [_ H].
  rewrite H. reflexivity.
Defined.

(** ** The set-up of the data-parallel driver *)

Section SetUpFacts.
Import Run MinMLP.
Context {num : Numeric}.

Lemma prepare_succeeds (env : NNFromScratch.Env) (o : Objects) :
  NNFromScratch.GLOBAL_BATCH_SIZE mod NNFromScratch.size env = 0 ->
  NNFromScratch.prepare env o
  = (Ok (Shard.shard (NNFromScratch.x_train_file env) (NNFromScratch.rank env)
                     (NNFromScratch.size env),
         Shard.shard (NNFromScratch.y_train_file env) (NNFromScratch.rank env)
                     (NNFromScratch.size env),
         NNFromScratch.GLOBAL_BATCH_SIZE / NNFromScratch.size env),
     o,
     if NNFromScratch.save_dir_is_dir env then []
     else (if NNFromScratch.rank env =? 0
           then [PrintDownloading; Download] else []) ++ [Barrier]).
Proof.
  intros H. apply Nat.eqb_eq in H. unfold NNFromScratch.prepare.
  destruct (NNFromScratch.save_dir_is_dir env);
    [|destruct (NNFromScratch.rank env =? 0)];
    unfold bind, assert; simpl; rewrite H; reflexivity.
Qed.

Lemma prepare_outcome (env : NNFromScratch.Env) (o : Objects) :
  (NNFromScratch.GLOBAL_BATCH_SIZE mod NNFromScratch.size env = 0
   /\ exists t,
        NNFromScratch.prepare env o
        = (Ok (Shard.shard (NNFromScratch.x_train_file env) (NNFromScratch.rank env)
                           (NNFromScratch.size env),
               Shard.shard (NNFromScratch.y_train_file env) (NNFromScratch.rank env)
                           (NNFromScratch.size env),
               NNFromScratch.GLOBAL_BATCH_SIZE / NNFromScratch.size env), o, t))
  \/ result (NNFromScratch.prepare env o) = Raise Py.AssertionError.
Proof.
  destruct (Nat.eq_dec (NNFromScratch.GLOBAL_BATCH_SIZE mod NNFromScratch.size env) 0)
    as [H|H].
  - left. split; [exact H|]. eexists. now apply prepare_succeeds.
  - right. now rewrite prepare_fails.
Qed.

Lemma passed_check_batch_size (size : nat) :
  NNFromScratch.GLOBAL_BATCH_SIZE mod size = 0 ->
  1 <= NNFromScratch.GLOBAL_BATCH_SIZE / size
  /\ size * (NNFromScratch.GLOBAL_BATCH_SIZE / size) = NNFromScratch.GLOBAL_BATCH_SIZE.
Proof.
  intros H. unfold NNFromScratch.GLOBAL_BATCH_SIZE in *.
  pose proof (Nat.div_mod_eq 128 size) as E. rewrite H in E.
  destruct size as [|size]; [discriminate H|].
  split; [|lia]. destruct (128 / S size); lia.
Qed.
End SetUpFacts.

(** X4. Whenever the set-up of the data-parallel driver gets past the
    divisibility check, the per-process batch size is at least 1 and the
    batch sizes of all processes add up to the global batch size exactly;
    so the batch loop, whose [range] would raise on a zero step, always
    runs to its end. *)
Theorem batch_size_after_check {num : MinMLP.Numeric}
        (env : NNFromScratch.Env) (o : MinMLP.Objects)
        (data : list MinMLP.Row * list MinMLP.Row * nat) :
  Run.result (NNFromScratch.prepare env o) = Run.Ok data ->
  1 <= snd data
  /\ NNFromScratch.size env * snd data = NNFromScratch.GLOBAL_BATCH_SIZE
  /\ fst (fst data)
     = Shard.shard (NNFromScratch.x_train_file env) (NNFromScratch.rank env)
                   (NNFromScratch.size env)
  /\ snd (fst data)
     = Shard.shard (NNFromScratch.y_train_file env) (NNFromScratch.rank env)
                   (NNFromScratch.size env)
  /\ (forall cls comm x_train y_train o',
        Run.result (NNFromScratch.training_loop cls comm (snd data)
                      x_train y_train o') = Run.Ok tt).
Proof.
  intros Hr. destruct (prepare_outcome env o) as [[Hdiv [t E]]|Hfail].
  - rewrite E in Hr. injection Hr as <-. cbn [fst snd].
    destruct (passed_check_batch_size _ Hdiv) as [Hpos Hsum].
    split; [exact Hpos|]. split; [exact Hsum|]. split; [reflexivity|].
    split; [reflexivity|].
    intros cls comm x_train y_train o'. unfold NNFromScratch.training_loop.
    destruct (Nat.eqb_spec (NNFromScratch.GLOBAL_BATCH_SIZE / NNFromScratch.size env) 0)
      as [E0|_]; [lia|].
    apply for_each_returns. intros j s _. apply train_batch_run.
  - rewrite Hfail in Hr. discriminate Hr.
Qed.

Lemma batch_size_after_check_witness :
  Run.result (NNFromScratch.prepare Sample.nn_env_2 (Toy.objects 1))
  = Run.Ok ([2; 4]%Z, [4; 8]%Z, 64)
  /\ 1 <= 64.
Proof.
  split; [reflexivity|].
  apply (batch_size_after_check (num := Toy.numeric) Sample.nn_env_2
           (Toy.objects 1) ([2; 4]%Z, [4; 8]%Z, 64)).
  reflexivity.
Defined.

(** ** A whole run of the data-parallel driver *)

Section WholeRunFacts.
Import Run MinMLP Calls.
Context {num : Numeric}.

Lemma without_lines_app (t u : list Event) :
  without_lines (t ++ u) = without_lines t ++ without_lines u.
Proof. apply filter_app. Qed.

Lemma count_app (p : Event -> bool) (t u : list Event) :
  count p (t ++ u) = count p t + count p u.
Proof. unfold count. now rewrite filter_app, length_app. Qed.

(** A loop whose passes all return and all show the same calls once the
    accuracy lines are left out. *)
Lemma for_each_without_lines {S A : Type} (body : A -> M S unit)
      (ev : list Event) (k : nat) (l : list A) (s : S) :
  (forall a s, result (body a s) = Ok tt
               /\ without_lines (trace (body a s)) = ev
               /\ count is_print_line (trace (body a s)) = k) ->
  result (for_each l body s) = Ok tt
  /\ without_lines (trace (for_each l body s)) = flat_map (fun _ => ev) l
  /\ count is_print_line (trace (for_each l body s)) = length l * k.
Proof.
  intros Hbody. revert s. induction l as [|a l IH]; intros s; [now repeat split|].
  simpl. destruct (body a s) as [[r s1] t1] eqn:E.
  destruct (Hbody a s) as [Hr [Ht Hk]]. rewrite E in Hr, Ht, Hk.
  cbn [result trace fst snd] in Hr, Ht, Hk. subst r.
  rewrite (bind_Ok _ _ _ _ _ _ E). cbn [result final trace fst snd].
  destruct (IH s1) as [IHr [IHt IHk]].
  rewrite without_lines_app, count_app, Ht, Hk, IHr, IHt, IHk. now repeat split.
Qed.

Lemma training_loop_run (cls : model_class) (comm : Peers) (B : nat)
      (x y : list Row) (o : Objects) :
  B <> 0 ->
  result (NNFromScratch.training_loop cls comm B x y o) = Ok tt
  /\ trace (NNFromScratch.training_loop cls comm B x y o)
     = flat_map (fun _ => NNFromScratch.batch_events cls) (Py.range3 0 (length x) B).
Proof.
  intros HB. unfold NNFromScratch.training_loop.
  destruct (Nat.eqb_spec B 0) as [E|_]; [contradiction|].
  apply for_each_events. intros j s. split; apply train_batch_run.
Qed.

Lemma flat_map_const_filter {A : Type} (p : Event -> bool) (ev : list Event)
      (l : list A) :
  filter p (flat_map (fun _ => ev) l) = flat_map (fun _ => filter p ev) l.
Proof.
  induction l as [|a l IH]; [reflexivity|].
  simpl. now rewrite filter_app, IH.
Qed.

Lemma flat_map_const_length {A : Type} (ev : list Event) (l : list A) :
  length (flat_map (fun _ => ev) l) = length l * length ev.
Proof.
  induction l as [|a l IH]; [reflexivity|].
  simpl. rewrite length_app, IH. lia.
Qed.

Lemma batch_events_no_lines (cls : model_class) :
  without_lines (NNFromScratch.batch_events cls) = NNFromScratch.batch_events cls
  /\ count is_print_line (NNFromScratch.batch_events cls) = 0.
Proof. destruct cls; split; reflexivity. Qed.

Lemma nn_accuracy_run (x_val y_val : list Row) (o : Objects) :
  exists acc o1,
    NNFromScratch.compute_accuracy x_val y_val o
    = (Ok acc, o1, [ModelEval; Forward; ModelTrain]).
Proof. do 2 eexists. reflexivity. Qed.

(** One epoch: the accuracy on the validation set, its line on rank 0, and
    the batch loop. *)
Lemma epoch_run (rank : nat) (cls : model_class) (comm : Peers) (B : nat)
      (x y x_val y_val : list Row) (i : nat) (o : Objects) :
  B <> 0 ->
  result ((accuracy <- NNFromScratch.compute_accuracy x_val y_val ;;
           rprint rank i accuracy ;;
           NNFromScratch.training_loop cls comm B x y) o) = Ok tt
  /\ without_lines
       (trace ((accuracy <- NNFromScratch.compute_accuracy x_val y_val ;;
                rprint rank i accuracy ;;
                NNFromScratch.training_loop cls comm B x y) o))
     = [ModelEval; Forward; ModelTrain]
         ++ flat_map (fun _ => NNFromScratch.batch_events cls)
                     (Py.range3 0 (length x) B)
  /\ count is_print_line
       (trace ((accuracy <- NNFromScratch.compute_accuracy x_val y_val ;;
                rprint rank i accuracy ;;
                NNFromScratch.training_loop cls comm B x y) o))
     = if rank =? 0 then 1 else 0.
Proof.
  intros HB.
  destruct (nn_accuracy_run x_val y_val o) as [acc [o1 Eacc]].
  rewrite (bind_Ok _ _ _ _ _ _ Eacc).
  cbn [result final trace fst snd].
  assert (Hloop : forall s,
      result (NNFromScratch.training_loop cls comm B x y s) = Ok tt
      /\ trace (NNFromScratch.training_loop cls comm B x y s)
         = flat_map (fun _ => NNFromScratch.batch_events cls)
                    (Py.range3 0 (length x) B))
    by (intros s; now apply training_loop_run).
  assert (Hnl : without_lines
                  (flat_map (fun _ => NNFromScratch.batch_events cls)
                            (Py.range3 0 (length x) B))
                = flat_map (fun _ => NNFromScratch.batch_events cls)
                           (Py.range3 0 (length x) B)).
  { pose proof (proj1 (batch_events_no_lines cls)) as H1.
    unfold without_lines in H1 |- *. now rewrite flat_map_const_filter, H1. }
  assert (Hc : count is_print_line
                 (flat_map (fun _ => NNFromScratch.batch_events cls)
                           (Py.range3 0 (length x) B)) = 0).
  { unfold count. rewrite flat_map_const_filter, flat_map_const_length.
    destruct (batch_events_no_lines cls) as [_ H0]. unfold count in H0.
    rewrite H0. lia. }
  unfold rprint. destruct (rank =? 0).
  - rewrite (bind_Ok (emit (PrintLine i acc)) _ o1 tt o1 [PrintLine i acc] eq_refl).
    destruct (Hloop o1) as [Hr Ht]. rewrite Hr, Ht.
    cbn [result final trace fst snd].
    rewrite !without_lines_app, !count_app, Hnl, Hc. now repeat split.
  - rewrite (bind_Ok (ret tt) _ o1 tt o1 [] eq_refl).
    destruct (Hloop o1) as [Hr Ht]. rewrite Hr, Ht.
    cbn [result final trace fst snd].
    rewrite !without_lines_app, !count_app, Hnl, Hc. now repeat split.
Qed.
Lemma count_without_lines (p : Event -> bool) (t : list Event) :
  (forall e, p e = true -> is_print_line e = false) ->
  count p (without_lines t) = count p t.
Proof.
  intros Hp. unfold count, without_lines. induction t as [|e t IH]; [reflexivity|].
  simpl. destruct (p e) eqn:Epe.
  - rewrite (Hp e Epe). simpl. rewrite Epe. simpl. now rewrite IH.
  - destruct (is_print_line e); simpl; [exact IH|]. rewrite Epe. exact IH.
Qed.

Lemma count_flat_map_const {A : Type} (p : Event -> bool) (ev : list Event)
      (l : list A) :
  count p (flat_map (fun _ => ev) l) = length l * count p ev.
Proof.
  unfold count. now rewrite flat_map_const_filter, flat_map_const_length.
Qed.

(** The end of the main program: the last accuracy, its line, the hash and
    its comparison. *)
Lemma closing_run (rank : nat) (comm : Peers) (x_val y_val : list Row) (o : Objects) :
  (result ((accuracy <- NNFromScratch.compute_accuracy x_val y_val ;;
            rprint rank NNFromScratch.EPOCHS accuracy ;;
            h <- get_model_hash ;;
            assert_sync comm h) o) = Ok tt
   \/ result ((accuracy <- NNFromScratch.compute_accuracy x_val y_val ;;
               rprint rank NNFromScratch.EPOCHS accuracy ;;
               h <- get_model_hash ;;
               assert_sync comm h) o) = Raise Py.AssertionError)
  /\ without_lines
       (trace ((accuracy <- NNFromScratch.compute_accuracy x_val y_val ;;
                rprint rank NNFromScratch.EPOCHS accuracy ;;
                h <- get_model_hash ;;
                assert_sync comm h) o))
     = [ModelEval; Forward; ModelTrain; Gather]
  /\ count is_print_line
       (trace ((accuracy <- NNFromScratch.compute_accuracy x_val y_val ;;
                rprint rank NNFromScratch.EPOCHS accuracy ;;
                h <- get_model_hash ;;
                assert_sync comm h) o))
     = if rank =? 0 then 1 else 0.
Proof.
  destruct (nn_accuracy_run x_val y_val o) as [acc [o1 Eacc]].
  rewrite (bind_Ok _ _ _ _ _ _ Eacc). cbn [result final trace fst snd].
  unfold rprint, get_model_hash, assert_sync, count_collective, assert.
  destruct (rank =? 0); unfold bind; simpl;
    destruct (forallb _ _); simpl; repeat split; auto.
Qed.
End WholeRunFacts.




(** ** Backward passes of a rank in one epoch *)

Section BackwardCallFacts.
Import Run MinMLP Calls.
Context {num : Numeric}.

Lemma backward_calls (cls : model_class) (comm : Peers) (B : nat)
      (x y : list Row) (o : Objects) :
  B <> 0 ->
  count is_backward (trace (NNFromScratch.training_loop cls comm B x y o))
  = length x / B + (if length x mod B =? 0 then 0 else 1)
  /\ count is_allreduce (trace (NNFromScratch.training_loop cls comm B x y o))
     = match cls with
       | PlainMLP => 0
       | DistributedMLP => length x / B + (if length x mod B =? 0 then 0 else 1)
       end.
Proof.
  intros HB. destruct (training_loop_run cls comm B x y o HB) as [_ Ht].
  rewrite Ht, !count_flat_map_const.
  unfold Py.range3, Py.slice_indices. rewrite length_map, length_seq.
  rewrite range_count by lia.
  destruct cls; cbn [count is_backward is_allreduce filter length
                       NNFromScratch.batch_events app]; lia.
Qed.

Lemma batches_after_one_more_row (q B : nat) :
  0 < B ->
  (q + 1) / B + (if (q + 1) mod B =? 0 then 0 else 1) = q / B + 1.
Proof.
  intros HB. rewrite <- range_count by assumption.
  unfold Py.slice_length. destruct (Nat.ltb_spec 0 (q + 1)) as [_|H]; [|lia].
  f_equal. f_equal. lia.
Qed.
End BackwardCallFacts.

(** X6. In one epoch a rank of the data-parallel driver runs as many
    backward passes as its shard has batches, the partial last batch
    included: with [L = floor(N/size) + (1 if rank < N mod size)] rows in
    the shard that is [ceil(L / B)]; a distributed model all-reduces its
    gradients that many times, a plain model never. *)
Theorem backward_passes_per_epoch {num : MinMLP.Numeric}
        (cls : MinMLP.model_class) (comm : MinMLP.Peers)
        (x_file y_file : list MinMLP.Row) (size rank B : nat) (o : MinMLP.Objects) :
  0 < size -> rank < size -> B <> 0 ->
  Calls.count Calls.is_backward
    (Run.trace (NNFromScratch.training_loop cls comm B
                  (Shard.shard x_file rank size) (Shard.shard y_file rank size) o))
  = (length x_file / size + (if rank <? length x_file mod size then 1 else 0)) / B
    + (if (length x_file / size
           + (if rank <? length x_file mod size then 1 else 0)) mod B =? 0
       then 0 else 1)
  /\ Calls.count Calls.is_allreduce
       (Run.trace (NNFromScratch.training_loop cls comm B
                     (Shard.shard x_file rank size) (Shard.shard y_file rank size) o))
     = match cls with
       | MinMLP.PlainMLP => 0
       | MinMLP.DistributedMLP =>
           Calls.count Calls.is_backward
             (Run.trace (NNFromScratch.training_loop cls comm B
                           (Shard.shard x_file rank size)
                           (Shard.shard y_file rank size) o))
       end.
Proof.
  intros Hs Hr HB.
  destruct (backward_calls cls comm B (Shard.shard x_file rank size)
              (Shard.shard y_file rank size) o HB) as [Hb Ha].
  rewrite (shard_rows_count _ x_file size rank Hs Hr) in Hb, Ha.
  split; [exact Hb|].
  rewrite Ha, Hb. now destruct cls.
Qed.

Lemma backward_passes_per_epoch_witness :
  0 < 2 /\ 0 < 2 /\ 2 <> 0
  /\ Calls.count Calls.is_backward
       (Run.trace (NNFromScratch.training_loop MinMLP.DistributedMLP Toy.alone 2
                     (Shard.shard Toy.x_train_4 0 2) (Shard.shard Toy.y_train_4 0 2)
                     (Toy.objects 1))) = 1.
Proof.
  split; [lia|]. split; [lia|]. split; [discriminate|].
  destruct (backward_passes_per_epoch (num := Toy.numeric) MinMLP.DistributedMLP
              Toy.alone Toy.x_train_4 Toy.y_train_4 2 0 2 (Toy.objects 1))
    as [H _]; [lia | lia | discriminate |].
  rewrite H. reflexivity.
Defined.

(** X7. Two ranks of the data-parallel driver whose shards differ by one row
    (rank [r] below [N mod size], rank [r'] not) run the same number of
    backward passes per epoch exactly when [floor(N/size)] is not a
    multiple of the batch size; when it is a multiple, rank [r] runs one
    more backward pass, and with it one more all-reduce, than rank [r']. *)
Theorem backward_passes_of_two_ranks {num : MinMLP.Numeric}
        (cls : MinMLP.model_class) (comm : MinMLP.Peers)
        (x_file y_file : list MinMLP.Row) (size r r' B : nat)
        (o o' : MinMLP.Objects) :
  0 < size -> B <> 0 ->
  r < length x_file mod size -> length x_file mod size <= r' -> r' < size ->
  Calls.count Calls.is_backward
    (Run.trace (NNFromScratch.training_loop cls comm B
                  (Shard.shard x_file r size) (Shard.shard y_file r size) o))
  = length x_file / size / B + 1
  /\ (Calls.count Calls.is_backward
        (Run.trace (NNFromScratch.training_loop cls comm B
                      (Shard.shard x_file r size) (Shard.shard y_file r size) o))
      = Calls.count Calls.is_backward
          (Run.trace (NNFromScratch.training_loop cls comm B
                        (Shard.shard x_file r' size) (Shard.shard y_file r' size) o'))
      <-> (length x_file / size) mod B <> 0)
  /\ ((length x_file / size) mod B = 0 ->
      Calls.count Calls.is_backward
        (Run.trace (NNFromScratch.training_loop cls comm B
                      (Shard.shard x_file r size) (Shard.shard y_file r size) o))
      = Calls.count Calls.is_backward
          (Run.trace (NNFromScratch.training_loop cls comm B
                        (Shard.shard x_file r' size) (Shard.shard y_file r' size) o'))
        + 1).
Proof.
  intros Hs HB Hr Hr' Hr's.
  destruct (backward_calls cls comm B (Shard.shard x_file r size)
              (Shard.shard y_file r size) o HB) as [Hb _].
  destruct (backward_calls cls comm B (Shard.shard x_file r' size)
              (Shard.shard y_file r' size) o' HB) as [Hb' _].
  rewrite (shard_rows_count _ x_file size r Hs) in Hb by lia.
  rewrite (shard_rows_count _ x_file size r' Hs Hr's) in Hb'.
  apply Nat.ltb_lt in Hr. rewrite Hr in Hb.
  assert (Hge : (r' <? length x_file mod size) = false) by (apply Nat.ltb_ge; lia).
  rewrite Hge, Nat.add_0_r in Hb'.
  rewrite batches_after_one_more_row in Hb by lia.
  rewrite Hb, Hb'.
  destruct (Nat.eqb_spec ((length x_file / size) mod B) 0) as [E|E].
  - split; [reflexivity|]. split; [|intros _; lia]. split; [lia | contradiction].
  - split; [reflexivity|]. split; [|contradiction]. split; [intros _; exact E | lia].
Qed.

Lemma backward_passes_of_two_ranks_witness :
  0 < 2 /\ 1 <> 0
  /\ 0 < length (Toy.x_train_4 ++ [5%Z]) mod 2
  /\ length (Toy.x_train_4 ++ [5%Z]) mod 2 <= 1 /\ 1 < 2
  /\ Calls.count Calls.is_backward
       (Run.trace (NNFromScratch.training_loop MinMLP.DistributedMLP Toy.alone 1
                     (Shard.shard (Toy.x_train_4 ++ [5%Z]) 0 2)
                     (Shard.shard (Toy.y_train_4 ++ [10%Z]) 0 2) (Toy.objects 1)))
     = 3.
Proof.
  split; [lia|]. split; [discriminate|]. split; [simpl; lia|].
  split; [simpl; lia|]. split; [lia|].
  destruct (backward_passes_of_two_ranks (num := Toy.numeric) MinMLP.DistributedMLP
              Toy.alone (Toy.x_train_4 ++ [5%Z]) (Toy.y_train_4 ++ [10%Z])
              2 0 1 1 (Toy.objects 1) (Toy.objects 1))
    as [H _]; [lia | discriminate | simpl; lia | simpl; lia | lia |].
  rewrite H. reflexivity.
Defined.

(** ** Runs of the data-parallel group on evenly divided data *)



(** ** The value of the accuracy *)

Section AccuracyValueFacts.
Import Run MinMLP.
Context {num : Numeric}.

Lemma count_equal_bound (pred target : list nat) :
  Py.count_equal pred target <= length pred.
Proof.
  unfold Py.count_equal.
  etransitivity; [apply filter_length_le|].
  rewrite length_combine. lia.
Qed.

(** A quotient of a count by a total that bounds it is a fraction. *)
Lemma fraction_in_unit_interval (c t : nat) :
  c <= S t ->
  (0 <= Z.of_nat c # Pos.of_succ_nat t)%Q
  /\ (Z.of_nat c # Pos.of_succ_nat t <= 1)%Q.
Proof.
  intros H. unfold Qle. simpl. rewrite Znat.Zpos_P_of_succ_nat. lia.
Qed.

Lemma np_mean_equal_range (pred target : list nat) :
  (pred = [] /\ Py.np_mean_equal pred target = Py.PyNaN)
  \/ (pred <> [] /\ exists q, Py.np_mean_equal pred target = Py.PyFloat q
                             /\ (0 <= q)%Q /\ (q <= 1)%Q).
Proof.
  unfold Py.np_mean_equal. pose proof (count_equal_bound pred target) as Hle.
  destruct pred as [|p pred]; [left; now split|].
  right. split; [discriminate|]. eexists. split; [reflexivity|].
  apply fraction_in_unit_interval. exact Hle.
Qed.

Lemma for_fold_result_invariant {S A B : Type} (I : B -> Prop)
      (body : A -> B -> M S B) (l : list A) :
  (forall a b s b', I b -> result (body a b s) = Ok b' -> I b') ->
  forall b s b', I b -> result (for_fold l b body s) = Ok b' -> I b'.
Proof.
  intros Hbody. induction l as [|a l IH]; intros b s b' Hb E.
  - injection E as <-. exact Hb.
  - simpl in E. destruct (body a b s) as [[[b1|e] s1] t1] eqn:Eb.
    + rewrite (bind_Ok _ _ _ _ _ _ Eb) in E. cbn [result fst] in E.
      apply (IH b1 s1 b'); [|exact E].
      apply (Hbody a b s b1 Hb). now rewrite Eb.
    + rewrite (bind_Raise _ _ _ _ _ _ Eb) in E. discriminate E.
Qed.

Lemma accuracy_counts_bounded (w : Worker) (d : Dataset) (l : list nat)
      (c c' : nat * nat) (o : Objects) :
  fst c <= snd c ->
  result (for_fold l c (TrainDDP.accuracy_batch w d) o) = Ok c' ->
  fst c' <= snd c'.
Proof.
  apply (for_fold_result_invariant (fun c => fst c <= snd c)).
  intros a b s b' Hb E.
  destruct (Z.of_nat (stage_id w) =? Z.of_nat (pipeline_depth w) - 1)%Z eqn:H.
  - rewrite accuracy_batch_last_stage in E by assumption.
    destruct (micro_batch_in_range d a 0); [|discriminate E].
    injection E as <-. cbn [fst snd].
    pose proof (count_equal_bound
                  (map argmax (stage_output w (params (model s)) a))
                  (map argmax (Py.take_rows (target_Y d) (micro_batch_rows d a 0)))).
    lia.
  - rewrite accuracy_batch_other_stage in E by assumption.
    now injection E as <-.
Qed.

Lemma accuracy_quotient_range (n c t : nat) (o : Objects) (v : Py.value) :
  c <= t ->
  result (TrainDDP.accuracy_quotient n c t o) = Ok v ->
  v = Py.PyNaN \/ exists q, v = Py.PyFloat q /\ (0 <= q)%Q /\ (q <= 1)%Q.
Proof.
  intros Hle E. unfold TrainDDP.accuracy_quotient in E. destruct t as [|t].
  - destruct (n =? 0); [discriminate E|]. injection E as <-. now left.
  - injection E as <-. right. eexists. split; [reflexivity|].
    now apply fraction_in_unit_interval.
Qed.
End AccuracyValueFacts.



Section AccuracySumFacts.
Import Run MinMLP.
Context {num : Numeric}.

(** On the last stage the loop adds up, batch by batch, the matches and the
    rows of the stage output. *)
Lemma accuracy_loop_sums (w : Worker) (d : Dataset) (p : Params) (l : list nat) :
  (Z.of_nat (stage_id w) =? Z.of_nat (pipeline_depth w) - 1)%Z = true ->
  Forall (fun b => micro_batch_in_range d b 0 = true) l ->
  forall (c : nat * nat) (o : Objects),
    params (model o) = p ->
    result (for_fold l c (TrainDDP.accuracy_batch w d) o)
    = Ok (fst c
          + list_sum (map (fun b =>
               Py.count_equal
                 (map argmax (stage_output w p b))
                 (map argmax (Py.take_rows (target_Y d) (micro_batch_rows d b 0)))) l),
          snd c + list_sum (map (fun b => length (stage_output w p b)) l)).
Proof.
  intros Hlast Hl. induction Hl as [|b l Hb Hl IH]; intros c o Hp.
  - simpl. rewrite !Nat.add_0_r. now destruct c.
  - simpl for_fold.
    pose proof (accuracy_batch_last_stage w d b c o Hlast) as Eb.
    rewrite Hb, Hp in Eb. rewrite (bind_Ok _ _ _ _ _ _ Eb).
    cbn [result fst]. rewrite IH by (cbn; exact Hp).
    cbn [fst snd map]. rewrite length_map.
    unfold list_sum. cbn [fold_right]. f_equal. f_equal; lia.
Qed.
End AccuracySumFacts.



(** ** The accuracy on a validation set without a full batch *)

Section EmptyValidationFacts.
Import Run MinMLP.
Context {num : Numeric}.

Lemma accuracy_without_batches (w : Worker) (d : Dataset) (o : Objects) :
  (Z.of_nat (stage_id w) =? Z.of_nat (pipeline_depth w) - 1)%Z = true ->
  get_num_batches d = 0 ->
  TrainDDP.compute_accuracy w d o
  = (Raise Py.ZeroDivisionError,
     final (MLP_train (final (MLP_eval o))),
     [ModelEval; ModelTrain]).
Proof.
  intros Hlast Hn. rewrite compute_accuracy_run, Hn, Hlast. reflexivity.
Qed.
End EmptyValidationFacts.



(** ** The start of the pipelined driver *)

Section TopologyRunFacts.
Import Run MinMLP.
Context {num : Numeric}.

Lemma topology_succeeds (env : TrainDDP.Env) (o : Objects) :
  TrainDDP.DP_tile_factor env * TrainDDP.PP_tile_factor env = TrainDDP.world_size env ->
  TrainDDP.GLOBAL_BATCH_SIZE mod TrainDDP.DP_tile_factor env = 0 ->
  TrainDDP.rank env < TrainDDP.world_size env ->
  TrainDDP.topology env o
  = (Ok (Topology.dp_comm (TrainDDP.PP_tile_factor env) (TrainDDP.world_size env)
                          (TrainDDP.rank env),
         Topology.pp_comm (TrainDDP.PP_tile_factor env) (TrainDDP.world_size env)
                          (TrainDDP.rank env)),
     o,
     [Split (TrainDDP.rank env mod TrainDDP.PP_tile_factor env);
      Split (TrainDDP.rank env / TrainDDP.PP_tile_factor env)]).
Proof.
  intros Hprod Hdiv Hrank. unfold TrainDDP.topology.
  assert (Hsizes :
    (Topology.Get_size (Topology.dp_comm (TrainDDP.PP_tile_factor env)
                          (TrainDDP.world_size env) (TrainDDP.rank env))
     =? TrainDDP.DP_tile_factor env)
    && (Topology.Get_size (Topology.pp_comm (TrainDDP.PP_tile_factor env)
                             (TrainDDP.world_size env) (TrainDDP.rank env))
        =? TrainDDP.PP_tile_factor env) = true).
  { rewrite <- Hprod in *. unfold Topology.Get_size.
    rewrite dp_comm_members, pp_comm_members by assumption.
    rewrite length_map, !length_seq, !Nat.eqb_refl. reflexivity. }
  apply Nat.eqb_eq in Hprod, Hdiv.
  unfold bind, assert. rewrite Hprod. cbn. rewrite Hdiv. cbn.
  rewrite Hsizes. reflexivity.
Qed.
End TopologyRunFacts.

(** X12. In the pipelined driver, once the product of the tile factors
    equals the process count and the data-parallel width divides the global
    batch size, the start-up cannot fail: the process takes part in exactly
    two splits, with colours [rank mod PP] and [rank / PP] in this order,
    and the sanity check on the sizes of the two communicators always
    holds. *)
Theorem topology_after_the_checks {num : MinMLP.Numeric}
        (env : TrainDDP.Env) (o : MinMLP.Objects) :
  TrainDDP.DP_tile_factor env * TrainDDP.PP_tile_factor env = TrainDDP.world_size env ->
  TrainDDP.GLOBAL_BATCH_SIZE mod TrainDDP.DP_tile_factor env = 0 ->
  TrainDDP.rank env < TrainDDP.world_size env ->
  exists dp_comm pp_comm,
    TrainDDP.topology env o
    = (Run.Ok (dp_comm, pp_comm), o,
       [Run.Split (TrainDDP.rank env mod TrainDDP.PP_tile_factor env);
        Run.Split (TrainDDP.rank env / TrainDDP.PP_tile_factor env)])
    /\ Topology.Get_size dp_comm = TrainDDP.DP_tile_factor env
    /\ Topology.Get_size pp_comm = TrainDDP.PP_tile_factor env
    /\ In (TrainDDP.rank env) dp_comm
    /\ In (TrainDDP.rank env) pp_comm.
Proof.
  intros Hprod Hdiv Hrank. do 2 eexists.
  split; [now apply topology_succeeds|].
  rewrite <- Hprod in *. unfold Topology.Get_size.
  rewrite dp_comm_members, pp_comm_members by assumption.
  rewrite length_map, !length_seq.
  destruct (coordinates_in_range _ _ _ Hrank) as [Hq Hm].
  split; [reflexivity|]. split; [reflexivity|]. split.
  - apply in_map_iff. exists (TrainDDP.rank env / TrainDDP.PP_tile_factor env).
    split; [symmetry; apply block_decompose | apply in_seq; lia].
  - apply in_seq.
    pose proof (block_decompose (TrainDDP.PP_tile_factor env) (TrainDDP.rank env)).
    lia.
Qed.

Lemma topology_after_the_checks_witness :
  exists dp_comm pp_comm,
    TrainDDP.topology Sample.ddp_env_2x3 (Toy.objects 1)
    = (Run.Ok (dp_comm, pp_comm), Toy.objects 1, [Run.Split 1; Run.Split 1])
    /\ Topology.Get_size dp_comm = 2
    /\ Topology.Get_size pp_comm = 3
    /\ In 4 dp_comm
    /\ In 4 pp_comm.
Proof.
  apply (topology_after_the_checks (num := Toy.numeric) Sample.ddp_env_2x3
           (Toy.objects 1)); [reflexivity | reflexivity | simpl; lia].
Defined.

Section FirstValidationFacts.
Import Run MinMLP.
Context {num : Numeric}.

Lemma val_worker_last_stage (env : TrainDDP.Env) :
  TrainDDP.DP_tile_factor env * TrainDDP.PP_tile_factor env = TrainDDP.world_size env ->
  TrainDDP.rank env < TrainDDP.world_size env ->
  TrainDDP.rank env mod TrainDDP.PP_tile_factor env + 1 = TrainDDP.PP_tile_factor env ->
  let w := TrainDDP.val_worker env
             (Topology.pp_comm (TrainDDP.PP_tile_factor env) (TrainDDP.world_size env)
                               (TrainDDP.rank env)) in
  (Z.of_nat (stage_id w) =? Z.of_nat (pipeline_depth w) - 1)%Z = true.
Proof.
  intros Hprod Hrank Hlast w. subst w. cbn [TrainDDP.val_worker stage_id pipeline_depth].
  rewrite <- Hprod in *.
  pose proof (stage_id_is_remainder _ _ _ Hrank) as Hs.
  unfold Topology.stage_id in Hs. rewrite Hs.
  unfold Topology.Get_size. rewrite pp_comm_members, length_seq by assumption.
  apply Z.eqb_eq. lia.
Qed.
End FirstValidationFacts.

(** X13. In the pipelined driver, a process on the last pipeline stage
    whose validation dataset has no full batch stops in the validation of
    the first epoch: the run raises [ZeroDivisionError] after the two
    splits, the initial [model.train()] and the [eval]/[train] pair of
    [compute_accuracy]; no batch is executed and nothing is printed. *)
Theorem main_stops_at_first_validation {num : MinMLP.Numeric}
        (env : TrainDDP.Env) (o : MinMLP.Objects) :
  TrainDDP.DP_tile_factor env * TrainDDP.PP_tile_factor env = TrainDDP.world_size env ->
  TrainDDP.GLOBAL_BATCH_SIZE mod TrainDDP.DP_tile_factor env = 0 ->
  TrainDDP.rank env < TrainDDP.world_size env ->
  TrainDDP.rank env mod TrainDDP.PP_tile_factor env + 1 = TrainDDP.PP_tile_factor env ->
  MinMLP.get_num_batches (TrainDDP.val_dataset env) = 0 ->
  Run.result (TrainDDP.main env o) = Run.Raise Py.ZeroDivisionError
  /\ Run.trace (TrainDDP.main env o)
     = [Run.Split (TrainDDP.rank env mod TrainDDP.PP_tile_factor env);
        Run.Split (TrainDDP.rank env / TrainDDP.PP_tile_factor env);
        Run.ModelTrain; Run.ModelEval; Run.ModelTrain].
Proof.
  intros Hprod Hdiv Hrank Hlast Hn.
  pose proof (val_worker_last_stage env Hprod Hrank Hlast) as Hw. cbn zeta in Hw.
  unfold TrainDDP.main.
  rewrite (bind_Ok _ _ _ _ _ _ (topology_succeeds env o Hprod Hdiv Hrank)).
  cbn [fst snd].
  set (pp := Topology.pp_comm _ _ _) in *.
  set (o1 := {| MinMLP.model := MinMLP.new_MLP (TrainDDP.initial_params env);
                MinMLP.buffers := MinMLP.buffers o;
                MinMLP.collectives := MinMLP.collectives o |}).
  rewrite (bind_Ok (MinMLP.on_model
                      (fun _ => MinMLP.new_MLP (TrainDDP.initial_params env)))
                   _ o tt o1 [] eq_refl).
  set (o2 := Run.final (MinMLP.MLP_train o1)).
  rewrite (bind_Ok MinMLP.MLP_train _ o1 tt o2 [Run.ModelTrain] eq_refl).
  change (Py.range TrainDDP.EPOCHS) with (0 :: seq 1 19).
  cbn [Run.for_each].
  pose proof (accuracy_without_batches (TrainDDP.val_worker env pp)
                (TrainDDP.val_dataset env) o2 Hw Hn) as Hacc.
  assert (Hep : TrainDDP.epoch_validation (TrainDDP.val_worker env pp)
                  (TrainDDP.val_dataset env) 0 o2
                = (Run.Raise Py.ZeroDivisionError,
                   Run.final (MinMLP.MLP_train (Run.final (MinMLP.MLP_eval o2))),
                   [Run.ModelEval; Run.ModelTrain])).
  { unfold TrainDDP.epoch_validation. now rewrite (bind_Raise _ _ _ _ _ _ Hacc). }
  rewrite (bind_Raise _ _ _ _ _ _
             (bind_Raise _ _ _ _ _ _ (bind_Raise _ _ _ _ _ _ Hep))).
  cbn [Run.result Run.trace fst snd app]. split; reflexivity.
Qed.

Lemma main_stops_at_first_validation_witness :
  MinMLP.get_num_batches (TrainDDP.val_dataset Sample.ddp_env_single) = 0
  /\ Run.result (TrainDDP.main Sample.ddp_env_single (Toy.objects 1))
     = Run.Raise Py.ZeroDivisionError.
Proof.
  split; [reflexivity|].
  apply (main_stops_at_first_validation (num := Toy.numeric)
           Sample.ddp_env_single (Toy.objects 1));
    [reflexivity | reflexivity | simpl; lia | reflexivity | reflexivity].
Defined.

(** ** Coordinates of a process *)

(** X14. In a world of [W * D] processes, the rank a process gets in its
    data-parallel communicator is [r / D] and its stage index is
    [r mod D]; both are in range, [r] is recovered as
    [dp_rank * D + stage_id], and looking either communicator up at the
    process's rank in it gives back the world rank. *)
Theorem coordinates_of_a_rank (W D r : nat) :
  r < W * D ->
  Topology.dp_rank D (W * D) r = r / D
  /\ Topology.stage_id D (W * D) r = r mod D
  /\ Topology.dp_rank D (W * D) r < W
  /\ Topology.stage_id D (W * D) r < D
  /\ r = Topology.dp_rank D (W * D) r * D + Topology.stage_id D (W * D) r
  /\ nth_error (Topology.dp_comm D (W * D) r) (Topology.dp_rank D (W * D) r)
     = Some r
  /\ nth_error (Topology.pp_comm D (W * D) r) (Topology.stage_id D (W * D) r)
     = Some r.
Proof.
  intros Hr. destruct (coordinates_in_range W D r Hr) as [Hq Hm].
  rewrite dp_rank_is_quotient, stage_id_is_remainder by assumption.
  rewrite dp_comm_members, pp_comm_members by assumption.
  split; [reflexivity|]. split; [reflexivity|].
  split; [assumption|]. split; [assumption|].
  split; [apply block_decompose|]. split.
  - rewrite nth_error_map, nth_error_seq.
    destruct (Nat.ltb_spec (r / D) W) as [_|]; [|lia].
    cbn [option_map]. f_equal. symmetry. apply block_decompose.
  - rewrite nth_error_seq.
    destruct (Nat.ltb_spec (r mod D) D) as [_|]; [|lia].
    f_equal. symmetry. apply block_decompose.
Qed.

Lemma coordinates_of_a_rank_witness :
  Topology.dp_rank 3 (2 * 3) 4 = 1
  /\ Topology.stage_id 3 (2 * 3) 4 = 1
  /\ nth_error (Topology.dp_comm 3 (2 * 3) 4) 1 = Some 4
  /\ nth_error (Topology.pp_comm 3 (2 * 3) 4) 1 = Some 4.
Proof.
  assert (H : 4 < 2 * 3) by (simpl; lia).
  destruct (coordinates_of_a_rank 2 3 4 H) as [H1 [H2 [_ [_ [_ [H3 H4]]]]]].
  repeat split; assumption.
Defined.

Section GroupFacts.
Import Topology.

Lemma Split_same_colour (n : nat) (color : nat -> nat) (q r : nat) :
  color q = color r -> Split n color q = Split n color r.
Proof. intros E. unfold Split. now rewrite E. Qed.

Lemma map_ext_seq {A : Type} (f g : nat -> A) (start len : nat) :
  (forall k, start <= k < start + len -> f k = g k) ->
  map f (seq start len) = map g (seq start len).
Proof. intros H. apply map_ext_in. intros k Hk. apply in_seq in Hk. now apply H. Qed.
End GroupFacts.

(** X15. In a world of [W * D] processes the two communicators of a
    process have only that process in common; every member of a
    communicator sees the same communicator; a pipeline holds exactly one
    process per stage, in stage order, and a data-parallel group exactly
    one process per shard, in shard order. *)
Theorem communicators_of_a_rank (W D r : nat) :
  r < W * D ->
  (forall q, In q (Topology.dp_comm D (W * D) r)
             /\ In q (Topology.pp_comm D (W * D) r) <-> q = r)
  /\ (forall q, In q (Topology.dp_comm D (W * D) r) ->
                Topology.dp_comm D (W * D) q = Topology.dp_comm D (W * D) r)
  /\ (forall q, In q (Topology.pp_comm D (W * D) r) ->
                Topology.pp_comm D (W * D) q = Topology.pp_comm D (W * D) r)
  /\ map (Topology.stage_id D (W * D)) (Topology.pp_comm D (W * D) r) = seq 0 D
  /\ map (Topology.dp_rank D (W * D)) (Topology.dp_comm D (W * D) r) = seq 0 W.
Proof.
  intros Hr. destruct (coordinates_in_range W D r Hr) as [Hq Hm].
  destruct (world_factors W D r Hr) as [HW HD].
  assert (Hdp : forall q, In q (Topology.dp_comm D (W * D) r)
                          <-> q < W * D /\ q mod D = r mod D).
  { intros q. unfold Topology.dp_comm, Topology.Split.
    rewrite filter_In, in_seq, Nat.eqb_eq. intuition lia. }
  assert (Hpp : forall q, In q (Topology.pp_comm D (W * D) r)
                          <-> q < W * D /\ q / D = r / D).
  { intros q. unfold Topology.pp_comm, Topology.Split.
    rewrite filter_In, in_seq, Nat.eqb_eq. intuition lia. }
  split.
  { intros q. rewrite Hdp, Hpp. split.
    - intros [[_ E1] [_ E2]].
      rewrite (block_decompose D q), (block_decompose D r). congruence.
    - intros ->. tauto. }
  split.
  { intros q Hin. apply Hdp in Hin as [_ E].
    unfold Topology.dp_comm. now apply Split_same_colour. }
  split.
  { intros q Hin. apply Hpp in Hin as [_ E].
    unfold Topology.pp_comm. now apply Split_same_colour. }
  split.
  - rewrite pp_comm_members by assumption.
    rewrite (map_ext_seq (Topology.stage_id D (W * D)) (fun q => q - r / D * D)).
    + clear. generalize (r / D * D). intros b.
      replace (seq 0 D) with (map (fun q => q - b) (seq (0 + b) D)).
      * reflexivity.
      * generalize 0. induction D as [|n IH]; intros s; [reflexivity|].
        cbn [seq map]. rewrite <- (IH (S s)). f_equal. lia.
    + intros k Hk.
      assert (Hkq : k / D = r / D).
      { symmetry. apply Nat.div_unique with (k - r / D * D); lia. }
      assert (HkW : k < W * D) by nia.
      rewrite stage_id_is_remainder by assumption.
      pose proof (block_decompose D k). lia.
  - rewrite dp_comm_members by assumption. rewrite map_map.
    rewrite (map_ext_seq _ (fun k => k)); [apply map_id|].
    intros k Hk.
    assert (HkW : k * D + r mod D < W * D) by nia.
    rewrite dp_rank_is_quotient by assumption.
    now apply div_block.
Qed.

Lemma communicators_of_a_rank_witness :
  map (Topology.stage_id 3 (2 * 3)) (Topology.pp_comm 3 (2 * 3) 4) = seq 0 3
  /\ map (Topology.dp_rank 3 (2 * 3)) (Topology.dp_comm 3 (2 * 3) 4) = seq 0 2.
Proof.
  assert (H : 4 < 2 * 3) by (simpl; lia).
  destruct (communicators_of_a_rank 2 3 4 H) as [_ [_ [_ [H1 H2]]]].
  split; assumption.
Defined.

(** ** What the pipelined driver hands to its workers *)

(** X16. In the pipelined driver, once the two checks pass, the training
    dataset of world rank [r] is loaded with batch size [128 / DP] (which
    times [DP] is the global batch size), micro-batches of the same size,
    shard [r / PP] of [DP]; both workers sit on stage [r mod PP] of a
    pipeline of depth [PP], and every training schedule is built for that
    stage and depth with one micro-batch. *)
Theorem workers_of_a_rank {num : MinMLP.Numeric} (env : TrainDDP.Env) :
  TrainDDP.DP_tile_factor env * TrainDDP.PP_tile_factor env = TrainDDP.world_size env ->
  TrainDDP.GLOBAL_BATCH_SIZE mod TrainDDP.DP_tile_factor env = 0 ->
  TrainDDP.rank env < TrainDDP.world_size env ->
  let D := TrainDDP.DP_tile_factor env in
  let P := TrainDDP.PP_tile_factor env in
  let r := TrainDDP.rank env in
  let dp := Topology.dp_comm P (TrainDDP.world_size env) r in
  let pp := Topology.pp_comm P (TrainDDP.world_size env) r in
  TrainDDP.train_dataset env dp
  = MinMLP.Dataset_load (TrainDDP.x_train_file env) (TrainDDP.y_train_file env)
                        (128 / D) (128 / D) (r / P) D
  /\ D * MinMLP.batch_size (TrainDDP.train_dataset env dp) = 128
  /\ MinMLP.stage_id (TrainDDP.train_worker env pp) = r mod P
  /\ MinMLP.pipeline_depth (TrainDDP.train_worker env pp) = P
  /\ MinMLP.stage_id (TrainDDP.val_worker env pp) = r mod P
  /\ MinMLP.pipeline_depth (TrainDDP.val_worker env pp) = P
  /\ TrainDDP.training_schedule pp r
     = {| MinMLP.kind := Run.DataParallelSchedule;
          MinMLP.num_micro_batches := 1;
          MinMLP.num_stages := P;
          MinMLP.schedule_stage_id := r mod P |}.
Proof.
  intros Hprod Hdiv Hrank D P r dp pp. subst D P r dp pp.
  rewrite <- Hprod in *.
  pose proof (dp_rank_is_quotient _ _ _ Hrank) as Hq.
  pose proof (stage_id_is_remainder _ _ _ Hrank) as Hs.
  unfold Topology.dp_rank in Hq. unfold Topology.stage_id in Hs.
  assert (Hdp : Topology.Get_size
                  (Topology.dp_comm (TrainDDP.PP_tile_factor env)
                     (TrainDDP.DP_tile_factor env * TrainDDP.PP_tile_factor env)
                     (TrainDDP.rank env))
                = TrainDDP.DP_tile_factor env).
  { unfold Topology.Get_size. rewrite dp_comm_members by assumption.
    now rewrite length_map, length_seq. }
  assert (Hpp : Topology.Get_size
                  (Topology.pp_comm (TrainDDP.PP_tile_factor env)
                     (TrainDDP.DP_tile_factor env * TrainDDP.PP_tile_factor env)
                     (TrainDDP.rank env))
                = TrainDDP.PP_tile_factor env).
  { unfold Topology.Get_size. rewrite pp_comm_members by assumption.
    apply length_seq. }
  unfold TrainDDP.train_dataset, TrainDDP.training_schedule,
    TrainDDP.train_worker, TrainDDP.val_worker, TrainDDP.N_MUBATCHES.
  cbn [MinMLP.stage_id MinMLP.pipeline_depth].
  rewrite Hq, Hs, Hdp, Hpp, Nat.div_1_r.
  unfold TrainDDP.GLOBAL_BATCH_SIZE in *.
  split; [reflexivity|]. split.
  { cbn [MinMLP.Dataset_load MinMLP.batch_size].
    symmetry. now apply Nat.Div0.div_exact. }
  repeat (split; [reflexivity|]). reflexivity.
Qed.

Lemma workers_of_a_rank_witness :
  MinMLP.batch_size
    (TrainDDP.train_dataset Sample.ddp_env_2x3 (Topology.dp_comm 3 6 4)) = 64
  /\ MinMLP.stage_id
       (TrainDDP.train_worker Sample.ddp_env_2x3 (Topology.pp_comm 3 6 4)) = 1.
Proof.
  assert (H1 : TrainDDP.DP_tile_factor Sample.ddp_env_2x3
               * TrainDDP.PP_tile_factor Sample.ddp_env_2x3
               = TrainDDP.world_size Sample.ddp_env_2x3) by reflexivity.
  assert (H2 : TrainDDP.GLOBAL_BATCH_SIZE
               mod TrainDDP.DP_tile_factor Sample.ddp_env_2x3 = 0) by reflexivity.
  assert (H3 : TrainDDP.rank Sample.ddp_env_2x3
               < TrainDDP.world_size Sample.ddp_env_2x3) by (simpl; lia).
  destruct (workers_of_a_rank (num := Toy.numeric) Sample.ddp_env_2x3 H1 H2 H3)
    as [Hd [_ [Hs _]]].
  split; [exact (f_equal MinMLP.batch_size Hd) | exact Hs].
Defined.
